(** * Performance-Model: the prediction pipeline of [flask/app.py]

    A shallow embedding of the history aggregation ([get_history_features]),
    the backfill and merge of the request handler ([index]), the projection
    onto the model's feature list and the 0.5 threshold, with the properties
    the specification states about them.

    Modelling choices.
    - Python [str] is [string]; a character is a code point below 256.
    - A Python [float] is a rational or NaN ([num]); the rounding of binary64
      arithmetic is outside the model.  A Python [int] stored next to floats
      (the zero fill, [len(past)], [has_prerequisites]) is the rational of the
      same value, as [0 == 0.0] holds in Python.
    - A [dict] with string keys is a [gmap string num].
    - A raised exception is the [Raise] case of [result]. *)

From Stdlib Require Import ZArith QArith Qreduction Ascii String List Lia.
From stdpp Require Import base option list gmap strings fin_maps.

Local Open Scope Z_scope.

(** ** Exceptions and the error monad *)

(** [KeyError] of a dictionary, a form or a frame, [IndexError] of a list,
    [ValueError] of a conversion, [ModelError] for what a classifier raises. *)
Inductive exn : Type :=
| KeyError (key : string)
| IndexError
| ValueError (text : string)
| ModelError.

Inductive result (A : Type) : Type :=
| Ok (a : A)
| Raise (e : exn).
Arguments Ok {A} a.
Arguments Raise {A} e.

#[global] Instance result_ret : MRet result := fun A a => Ok a.

#[global] Instance result_bind : MBind result := fun A B k m =>
  match m with
  | Ok a => k a
  | Raise e => Raise e
  end.

(** Whether a computation returned. *)
Definition is_Ok {A : Type} (m : result A) : bool :=
  match m with
  | Ok _ => true
  | Raise _ => false
  end.

(** ** Numbers *)

Inductive num : Type :=
| NaN
| Num (q : Q).

Definition of_int (z : Z) : num := Num (inject_Z z).

Fixpoint Qsum (xs : list Q) : Q :=
  match xs with
  | [] => 0%Q
  | x :: xs' => (x + Qsum xs')%Q
  end.

(** [Series.mean()]: NaN on an empty series, the arithmetic mean otherwise
    (kept in lowest terms, so that equal means are equal terms). *)
Definition mean (xs : list Q) : num :=
  match xs with
  | [] => NaN
  | _ :: _ => Num (Qred (Qsum xs / inject_Z (Z.of_nat (length xs))))
  end.

Definition Q_of_bool (b : bool) : Q := if b then 1%Q else 0%Q.

(** The mean of a boolean column: the share of [True]. *)
Definition mean_bool (bs : list bool) : num := mean (map Q_of_bool bs).

(** ** Strings *)

(** [str.isspace] on one character, for code points below 256:
    U+0009..U+000D, U+001C..U+001F, U+0020, U+0085, U+00A0. *)
Definition isspace (c : ascii) : bool :=
  let n := N_of_ascii c in
  ((9 <=? n) && (n <=? 13) || (28 <=? n) && (n <=? 32)
   || (n =? 133) || (n =? 160))%N.

Fixpoint lstrip (s : string) : string :=
  match s with
  | EmptyString => EmptyString
  | String c s' => if isspace c then lstrip s' else s
  end.

Definition rstrip (s : string) : string := String.rev (lstrip (String.rev s)).

(** [str.strip()] *)
Definition strip (s : string) : string := rstrip (lstrip s).

Definition flush (tok : list ascii) : list string :=
  match tok with
  | [] => []
  | _ :: _ => [string_of_list_ascii (rev tok)]
  end.

(** [tok] holds the characters of the token being read, last one first. *)
Fixpoint split_from (tok : list ascii) (s : string) : list string :=
  match s with
  | EmptyString => flush tok
  | String c s' =>
      if isspace c then flush tok ++ split_from [] s'
      else split_from (c :: tok) s'
  end.

(** [str.split()] with no argument: the maximal runs of non-whitespace. *)
Definition split (s : string) : list string := split_from [] s.

(** [str.startswith] *)
Definition startswith (s pre : string) : bool := String.prefix pre s.

(** The truth value of a string: non-empty. *)
Definition truthy (s : string) : bool :=
  match s with
  | EmptyString => false
  | String _ _ => true
  end.

(** ** The historical dataset *)

Record HistoricalRecord : Type := {
  student_id : Z;
  course_code : string;
  has_prerequisites : bool;
  total_score : Q;
  midterm_score : Q;
  final_score : Q;
  assignment_score : Q;
  attendance_rate : Q;
  passed : bool
}.

(** A data frame: its column labels and its rows.  [pd.DataFrame()] has
    neither; a frame read from the dataset has the nine columns. *)
Record DataFrame : Type := {
  columns : list string;
  rows : list HistoricalRecord
}.

Definition HISTORY_COLUMNS : list string :=
  ["student_id"; "course_code"; "has_prerequisites"; "total_score";
   "midterm_score"; "final_score"; "assignment_score"; "attendance_rate";
   "passed"].

Definition read_csv (rs : list HistoricalRecord) : DataFrame :=
  {| columns := HISTORY_COLUMNS; rows := rs |}.

(** [pd.DataFrame()], the value the failed load leaves in
    [student_data_df] (lines 25-27). *)
Definition DataFrame_empty : DataFrame := {| columns := []; rows := [] |}.

(** [df[label]]: the column as a list, [KeyError] when the label is not a
    column. *)
Definition getitem {A : Type} (df : DataFrame) (label : string)
    (field : HistoricalRecord -> A) : result (list A) :=
  if bool_decide (label ∈ columns df) then Ok (map field (rows df))
  else Raise (KeyError label).

(** [df[mask]]: the rows at which the boolean mask holds, same columns. *)
Definition getitem_mask (df : DataFrame) (mask : list bool) : DataFrame :=
  {| columns := columns df;
     rows := map fst (List.filter snd (combine (rows df) mask)) |}.

(** [df.empty]: some axis has length 0. *)
Definition empty (df : DataFrame) : bool :=
  match columns df, rows df with
  | _ :: _, _ :: _ => false
  | _, _ => true
  end.

(** [len(df)] *)
Definition len (df : DataFrame) : Z := Z.of_nat (length (rows df)).

(** ** Dictionaries *)

(** [{k: v for ...}] and [dict(items)]: later items replace earlier ones. *)
Definition dict_of_items (items : list (string * num)) : gmap string num :=
  fold_left (fun d kv => <[kv.1 := kv.2]> d) items ∅.

(** ** [get_history_features], lines 50-78 *)

Definition HISTORY_EXTRA : list string :=
  ["courses_taken"; "dept_pass_rate"; "prereq_avg_score"; "prereq_pass_rate"].

(** The filter of line 54. *)
Definition is_history_key (k : string) : bool :=
  startswith k "past_" || bool_decide (k ∈ HISTORY_EXTRA).

(** Line 54: [{k: 0 for k in FEATURES if ...}]. *)
Definition zero_fill (FEATURES : list string) : gmap string num :=
  dict_of_items (map (fun k => (k, of_int 0)) (List.filter is_history_key FEATURES)).

Section History.

Variable FEATURES : list string.
Variable student_data_df : DataFrame.

Definition get_history_features (sid : Z) (code : option string)
    : result (gmap string num) :=
  let df := student_data_df in
  ids ← getitem df "student_id" student_id;
  let recs := getitem_mask df (map (fun i => i =? sid) ids) in
  if empty recs then
    Ok (zero_fill FEATURES)
  else
    past ← match code with
           | None => Ok recs
           | Some c =>
               codes ← getitem recs "course_code" course_code;
               Ok (getitem_mask recs (map (fun x => negb (String.eqb x c)) codes))
           end;
    let past := if empty past then recs else past in
    totals ← getitem past "total_score" total_score;
    midterms ← getitem past "midterm_score" midterm_score;
    finals ← getitem past "final_score" final_score;
    assignments ← getitem past "assignment_score" assignment_score;
    attendances ← getitem past "attendance_rate" attendance_rate;
    passes ← getitem past "passed" passed;
    let past_avg_total_score := mean totals in
    let past_pass_rate := mean_bool passes in
    let feats : gmap string num :=
      <["courses_taken" := of_int (len past)]>
      (<["past_pass_rate" := past_pass_rate]>
      (<["past_avg_attendance" := mean attendances]>
      (<["past_avg_assignment_score" := mean assignments]>
      (<["past_avg_final_score" := mean finals]>
      (<["past_avg_midterm_score" := mean midterms]>
      (<["past_avg_total_score" := past_avg_total_score]> ∅)))))) in
    dept_pass_rate ←
      match code with
      | Some c =>
          if truthy c then
            dept ← match split c with
                   | d :: _ => Ok d
                   | [] => Raise IndexError
                   end;
            codes ← getitem past "course_code" course_code;
            let dept_past := getitem_mask past (map (fun x => startswith x dept) codes) in
            if negb (empty dept_past) then
              dept_passes ← getitem dept_past "passed" passed;
              Ok (mean_bool dept_passes)
            else Ok past_pass_rate
          else Ok past_pass_rate
      | None => Ok past_pass_rate
      end;
    let feats := <["dept_pass_rate" := dept_pass_rate]> feats in
    prereqs ← getitem past "has_prerequisites" has_prerequisites;
    let prereq_past := getitem_mask past prereqs in
    prereq_avg_score ←
      (if negb (empty prereq_past) then
         ts ← getitem prereq_past "total_score" total_score; Ok (mean ts)
       else Ok past_avg_total_score);
    let feats := <["prereq_avg_score" := prereq_avg_score]> feats in
    prereq_pass_rate ←
      (if negb (empty prereq_past) then
         ps ← getitem prereq_past "passed" passed; Ok (mean_bool ps)
       else Ok past_pass_rate);
    let feats := <["prereq_pass_rate" := prereq_pass_rate]> feats in
    Ok feats.

End History.

(** ** The request handler [index], lines 129-186 *)

(** [request]: the method and the submitted form. *)
Record Request : Type := {
  method : string;
  form : gmap string string
}.

(** What the rendered page shows: the template variables [prediction] and
    [probability], and the flashed messages. *)
Record Response : Type := {
  prediction : option string;
  probability : option Q;
  flashed : list string
}.

Definition ERROR_MESSAGE : string :=
  "Error during prediction. Please check inputs.".

(** [d[k]] on a dictionary. *)
Definition dict_getitem {V : Type} (d : gmap string V) (k : string) : result V :=
  match d !! k with
  | Some v => Ok v
  | None => Raise (KeyError k)
  end.

(** Lines 136-140, once read. *)
Record Inputs : Type := {
  sid : Z;
  code : string;
  pre : Z;
  cr : num;
  att : num
}.

(** Line 174. *)
Definition classify (proba : Q) : string :=
  if Qle_bool (1 # 2) proba then "Yes" else "No".

(** [pd.DataFrame(data)[FEATURES]], line 170: the columns named by the
    labels, in the order of the labels; [KeyError] when a label is no key
    of [data] (pandas names all the missing labels, the model the first). *)
Fixpoint select_columns (data : gmap string num) (labels : list string)
    : result (list (string * num)) :=
  match labels with
  | [] => Ok []
  | k :: ks =>
      v ← dict_getitem data k;
      rest ← select_columns data ks;
      Ok ((k, v) :: rest)
  end.

Section Handler.

Variable FEATURES : list string.
Variable student_data_df : DataFrame.
(** The built-in conversions [int()] and [float()] on a string. *)
Variable py_int : string -> result Z.
Variable py_float : string -> result num.
(** [model.predict_proba(df_in)[:,1][0]]: the classifier's probability of
    the positive class for the one row, or what it raises. *)
Variable predict_proba : list (string * num) -> result Q.

Definition read_inputs (f : gmap string string) : result Inputs :=
  s ← dict_getitem f "student_id";
  sid ← py_int s;
  s ← dict_getitem f "course_code";
  let code := strip s in
  s ← dict_getitem f "has_prerequisites";
  pre ← py_int s;
  s ← dict_getitem f "credits";
  cr ← py_float s;
  s ← dict_getitem f "attendance";
  att ← py_float s;
  Ok {| sid := sid; code := code; pre := pre; cr := cr; att := att |}.

(** [request.form.get(field)] is used when it is a non-empty string. *)
Definition supplied (f : gmap string string) (field : string) : bool :=
  match f !! field with
  | Some s => truthy s
  | None => false
  end.

(** Lines 146-153: [float(x) if x else hist[avg]]. *)
Definition backfill (f : gmap string string) (hist : gmap string num)
    (field avg : string) : result num :=
  match f !! field with
  | Some s => if truthy s then py_float s else dict_getitem hist avg
  | None => dict_getitem hist avg
  end.

(** Lines 159-167: the six current-term entries, then the entries of
    [hist], which replace an earlier entry of the same key. *)
Definition merge (i : Inputs) (mid fin asm : num) (hist : gmap string num)
    : gmap string num :=
  hist ∪
  (<["assignment_score" := asm]>
  (<["final_score" := fin]>
  (<["midterm_score" := mid]>
  (<["attendance_rate" := att i]>
  (<["credits" := cr i]>
  (<["has_prerequisites" := of_int (pre i)]> ∅)))))).

(** Lines 136-167: the merged record [data]. *)
Definition merged_record (f : gmap string string) : result (gmap string num) :=
  i ← read_inputs f;
  hist ← get_history_features FEATURES student_data_df (sid i) (Some (code i));
  mid ← backfill f hist "midterm" "past_avg_midterm_score";
  fin ← backfill f hist "final" "past_avg_final_score";
  asm ← backfill f hist "assignment" "past_avg_assignment_score";
  Ok (merge i mid fin asm hist).

(** The body of the [try], lines 136-178. *)
Definition predict (f : gmap string string) : result (string * Q) :=
  data ← merged_record f;
  df_in ← select_columns data FEATURES;
  proba ← predict_proba df_in;
  Ok (classify proba, proba).

Definition index (request : Request) : Response :=
  if String.eqb (method request) "POST" then
    match predict (form request) with
    | Ok (label, proba) =>
        {| prediction := Some label; probability := Some proba; flashed := [] |}
    | Raise _ =>
        {| prediction := None; probability := None; flashed := [ERROR_MESSAGE] |}
    end
  else {| prediction := None; probability := None; flashed := [] |}.

End Handler.

(** The default feature list, lines 39-45. *)
Definition DEFAULT_FEATURES : list string :=
  ["has_prerequisites"; "credits"; "attendance_rate";
   "midterm_score"; "final_score"; "assignment_score";
   "past_avg_total_score"; "past_avg_midterm_score"; "past_avg_final_score";
   "past_avg_assignment_score"; "past_avg_attendance"; "past_pass_rate";
   "courses_taken"; "dept_pass_rate"; "prereq_avg_score"; "prereq_pass_rate"].

(** The ten history-derived names. *)
Definition HISTORY_KEYS : list string :=
  ["past_avg_total_score"; "past_avg_midterm_score"; "past_avg_final_score";
   "past_avg_assignment_score"; "past_avg_attendance"; "past_pass_rate";
   "courses_taken"; "dept_pass_rate"; "prereq_avg_score"; "prereq_pass_rate"].

(** ** Decimal numerals

    Sample conversions for the examples: they agree with [int()] and
    [float()] on plain decimal integer numerals and raise [ValueError] on
    every other string. *)

Definition digit (c : ascii) : option Z :=
  let n := N_of_ascii c in
  if ((48 <=? n) && (n <=? 57))%N then Some (Z.of_N (n - 48)) else None.

Fixpoint digits_value (acc : Z) (s : string) : option Z :=
  match s with
  | EmptyString => Some acc
  | String c s' =>
      match digit c with
      | Some d => digits_value (10 * acc + d) s'
      | None => None
      end
  end.

Definition int_of_decimal (s : string) : result Z :=
  match s with
  | EmptyString => Raise (ValueError s)
  | String _ _ =>
      match digits_value 0 s with
      | Some z => Ok z
      | None => Raise (ValueError s)
      end
  end.

Definition float_of_decimal (s : string) : result num :=
  z ← int_of_decimal s; Ok (of_int z).

(** ** The specification's vocabulary *)

(** [recordsFor]: the rows of one student. *)
Definition recordsFor (s : Z) (rs : list HistoricalRecord) : list HistoricalRecord :=
  List.filter (fun r => student_id r =? s) rs.

(** The past set: the student's rows outside the requested course, or all
    of the student's rows when there is none. *)
Definition past_rows (recs : list HistoricalRecord) (c : option string)
    : list HistoricalRecord :=
  match c with
  | None => recs
  | Some c =>
      match List.filter (fun r => negb (String.eqb (course_code r) c)) recs with
      | [] => recs
      | r :: rs => r :: rs
      end
  end.

(** The rows of a department: the course code starts with its token. *)
Definition dept_rows (past : list HistoricalRecord) (dept : string)
    : list HistoricalRecord :=
  List.filter (fun r => startswith (course_code r) dept) past.

Definition prereq_rows (past : list HistoricalRecord) : list HistoricalRecord :=
  List.filter has_prerequisites past.

(** The substring before the first space. *)
Fixpoint before_first_space (s : string) : string :=
  match s with
  | EmptyString => EmptyString
  | String c s' => if Ascii.eqb c " " then EmptyString else String c (before_first_space s')
  end.

Fixpoint blank (s : string) : bool :=
  match s with
  | EmptyString => true
  | String c s' => isspace c && blank s'
  end.

Fixpoint no_space (s : string) : bool :=
  match s with
  | EmptyString => true
  | String c s' => negb (isspace c) && no_space s'
  end.

(** A course code names a department when a non-empty token without
    whitespace precedes its first space, as in ["<DEPT> <NUMBER>"]. *)
Definition names_department (c : string) : bool :=
  truthy (before_first_space c) && no_space (before_first_space c).

(** A non-empty string of whitespace only: [split()] finds no token. *)
Definition whitespace_only (c : string) : bool := truthy c && blank c.

(** The history dictionary over a past set, given the department rate. *)
Definition aggregates (past : list HistoricalRecord) (dept_rate : num)
    : gmap string num :=
  let pre_rows := prereq_rows past in
  <["prereq_pass_rate" :=
      match pre_rows with
      | [] => mean_bool (map passed past)
      | _ :: _ => mean_bool (map passed pre_rows)
      end]>
  (<["prereq_avg_score" :=
      match pre_rows with
      | [] => mean (map total_score past)
      | _ :: _ => mean (map total_score pre_rows)
      end]>
  (<["dept_pass_rate" := dept_rate]>
  (<["courses_taken" := of_int (Z.of_nat (length past))]>
  (<["past_pass_rate" := mean_bool (map passed past)]>
  (<["past_avg_attendance" := mean (map attendance_rate past)]>
  (<["past_avg_assignment_score" := mean (map assignment_score past)]>
  (<["past_avg_final_score" := mean (map final_score past)]>
  (<["past_avg_midterm_score" := mean (map midterm_score past)]>
  (<["past_avg_total_score" := mean (map total_score past)]> ∅))))))))).

(** The department pass rate over a past set, for a department token. *)
Definition dept_rate_for (past : list HistoricalRecord) (dept : string) : num :=
  match dept_rows past dept with
  | [] => mean_bool (map passed past)
  | r :: rs => mean_bool (map passed (r :: rs))
  end.

Definition dept_rate (past : list HistoricalRecord) (c : option string) : result num :=
  match c with
  | Some c =>
      if truthy c then
        match split c with
        | d :: _ => Ok (dept_rate_for past d)
        | [] => Raise IndexError
        end
      else Ok (mean_bool (map passed past))
  | None => Ok (mean_bool (map passed past))
  end.

(** ** Sample data for the examples *)

Definition record (s : Z) (c : string) (prereq : bool)
    (total midterm final assignment attendance : Q) (pass : bool)
    : HistoricalRecord :=
  {| student_id := s; course_code := c; has_prerequisites := prereq;
     total_score := total; midterm_score := midterm; final_score := final;
     assignment_score := assignment; attendance_rate := attendance;
     passed := pass |}.

Definition sample_rows : list HistoricalRecord :=
  [record 1 "CS 101" false 80 75 85 80 95 true;
   record 1 "CS 102" true 45 40 50 45 70 false;
   record 1 "MATH 201" false 66 60 70 68 88 true;
   record 2 "CS 101" false 90 92 88 90 99 true;
   record 3 "BIO 110" false 58 50 62 60 80 true;
   record 3 "BIO 110" false 72 70 74 72 85 true].

(** The two records of student 42 in the scenario of the specification;
    the scenario leaves [has_prerequisites] open. *)
Definition scenario_first (prereq : bool) : HistoricalRecord :=
  record 42 "MATH 201" prereq 70 65 75 70 90 true.

Definition scenario_second (prereq : bool) : HistoricalRecord :=
  record 42 "MATH 201" prereq 40 35 45 40 60 false.

(** A submitted form: the five required fields, then the optional scores
    that were filled in. *)
Definition sample_form (student course prereq credits attendance : string)
    (scores : list (string * string)) : gmap string string :=
  list_to_map
    ([("student_id", student); ("course_code", course);
      ("has_prerequisites", prereq); ("credits", credits);
      ("attendance", attendance)] ++ scores).

Definition post (f : gmap string string) : Request :=
  {| method := "POST"; form := f |}.

(** A classifier that answers 0.7 whatever the row. *)
Definition sample_model (row : list (string * num)) : result Q := Ok (7 # 10)%Q.

(** The page after a failed request: no prediction, the error flashed. *)
Definition error_page : Response :=
  {| prediction := None; probability := None; flashed := [ERROR_MESSAGE] |}.

(** The optional scores: form field, key of the merged record, key of the
    history average that stands in for it. *)
Definition OPTIONAL_SCORES : list (string * string * string) :=
  [("midterm", "midterm_score", "past_avg_midterm_score");
   ("final", "final_score", "past_avg_final_score");
   ("assignment", "assignment_score", "past_avg_assignment_score")].

(** A required field that cannot be read: absent from the form, or the
    conversion raises on its text. *)
Definition unreadable {A : Type} (conv : string -> result A)
    (f : gmap string string) (field : string) : Prop :=
  match f !! field with
  | Some text => exists e, conv text = Raise e
  | None => True
  end.

(** ** Further vocabulary *)

(** Line 32: [[line.strip() for line in f]], the feature list read from the
    lines of the feature file. *)
Definition load_features (lines : list string) : list string := map strip lines.

(** The six current-term keys of lines 159-165. *)
Definition CURRENT_KEYS : list string :=
  ["has_prerequisites"; "credits"; "attendance_rate";
   "midterm_score"; "final_score"; "assignment_score"].

(** The dataset without the rows of one student in one course. *)
Definition without_course (s : Z) (c : string) (rs : list HistoricalRecord)
    : list HistoricalRecord :=
  List.filter (fun r => negb ((student_id r =? s) && String.eqb (course_code r) c)) rs.

(** What the handler reads of an optional field: its text when it is
    non-empty. *)
Definition effective (f : gmap string string) (field : string) : option string :=
  match f !! field with
  | Some text => if truthy text then Some text else None
  | None => None
  end.

(** The fields of the form that the handler reads. *)
Definition REQUIRED_FIELDS : list string :=
  ["student_id"; "course_code"; "has_prerequisites"; "credits"; "attendance"].

Definition OPTIONAL_FIELDS : list string := ["midterm"; "final"; "assignment"].

(** A value that is a number, and one that is a rate between 0 and 1. *)
Definition is_number (v : num) : Prop :=
  match v with
  | Num _ => True
  | NaN => False
  end.

Definition is_rate (v : num) : Prop :=
  match v with
  | Num q => (0 <= q <= 1)%Q
  | NaN => False
  end.

Definition RATE_KEYS : list string :=
  ["past_pass_rate"; "dept_pass_rate"; "prereq_pass_rate"].

(** * Properties *)

(** ** Frames read from the dataset *)

Section LoadedFrame.

Variable rs : list HistoricalRecord.

Lemma getitem_read_csv {A : Type} (label : string) (field : HistoricalRecord -> A) :
  label ∈ HISTORY_COLUMNS -> getitem (read_csv rs) label field = Ok (map field rs).
Proof.
  intros Hin. unfold getitem; cbn [columns rows read_csv].
  by rewrite bool_decide_eq_true_2.
Qed.

Lemma mask_rows (p : HistoricalRecord -> bool) :
  map fst (List.filter snd (combine rs (map p rs))) = List.filter p rs.
Proof.
  induction rs as [|r rs' IH]; [done|].
  cbn. destruct (p r); cbn; by rewrite IH.
Qed.

Lemma getitem_mask_read_csv {A : Type} (field : HistoricalRecord -> A) (p : A -> bool) :
  getitem_mask (read_csv rs) (map p (map field rs))
  = read_csv (List.filter (fun r => p (field r)) rs).
Proof.
  unfold getitem_mask, read_csv; cbn [columns rows]. f_equal.
  rewrite map_map. apply mask_rows.
Qed.

Lemma getitem_mask_bool_read_csv (field : HistoricalRecord -> bool) :
  getitem_mask (read_csv rs) (map field rs) = read_csv (List.filter field rs).
Proof. unfold getitem_mask, read_csv; cbn [columns rows]. f_equal. apply mask_rows. Qed.

Lemma empty_read_csv :
  empty (read_csv rs) = match rs with [] => true | _ :: _ => false end.
Proof. by destruct rs. Qed.

End LoadedFrame.

Ltac known_column := vm_compute; set_solver.

(** ** [get_history_features] on a loaded frame *)

Section HistoryLoaded.

Variable FEATURES : list string.
Variable rs : list HistoricalRecord.
Variable s : Z.

(** Line 54: no record, the zero fill. *)
Lemma get_history_features_no_records (c : option string) :
  recordsFor s rs = [] ->
  get_history_features FEATURES (read_csv rs) s c = Ok (zero_fill FEATURES).
Proof.
  intros Hnone. unfold get_history_features.
  rewrite getitem_read_csv by known_column.
  cbn [mbind result_bind].
  rewrite (getitem_mask_read_csv rs student_id (fun i => i =? s)).
  fold (recordsFor s rs). by rewrite Hnone.
Qed.

(** Lines 55-78: with a record, the aggregates over the past set. *)
Lemma get_history_features_records (c : option string) :
  recordsFor s rs <> [] ->
  get_history_features FEATURES (read_csv rs) s c
  = (d ← dept_rate (past_rows (recordsFor s rs) c) c;
     Ok (aggregates (past_rows (recordsFor s rs) c) d)).
Proof.
  intros Hsome. unfold get_history_features.
  rewrite getitem_read_csv by known_column.
  cbn [mbind result_bind].
  rewrite (getitem_mask_read_csv rs student_id (fun i => i =? s)).
  fold (recordsFor s rs). rewrite empty_read_csv.
  destruct (recordsFor s rs) as [|r0 recs]; [done|]. clear Hsome.
  set (full := r0 :: recs).
  assert (Hpast : exists P,
    match c with
    | Some c0 =>
        getitem (read_csv full) "course_code" course_code
        ≫= λ codes : list string,
             Ok (getitem_mask (read_csv full)
                   (map (λ x : string, negb (x =? c0)%string) codes))
    | None => Ok (read_csv full)
    end = Ok (read_csv P)
    /\ (if empty (read_csv P) then read_csv full else read_csv P)
       = read_csv (past_rows full c)).
  { destruct c as [c0|].
    - eexists. rewrite getitem_read_csv by known_column.
      cbn [mbind result_bind].
      rewrite (getitem_mask_read_csv full course_code (fun x => negb (x =? c0)%string)).
      split; [reflexivity|]. rewrite empty_read_csv. unfold past_rows.
      by destruct (List.filter _ full).
    - exists full. split; [reflexivity|]. by rewrite empty_read_csv. }
  destruct Hpast as (P & -> & HP). cbn [mbind result_bind]. rewrite HP. clear HP P.
  set (past := past_rows full c).
  rewrite !getitem_read_csv by known_column.
  cbn [mbind result_bind].
  rewrite getitem_mask_bool_read_csv. fold (prereq_rows past).
  assert (Hdept : match c with
    | Some c0 =>
        if truthy c0
        then
         match split c0 with
         | [] => Raise IndexError
         | d :: _ => Ok d
         end
         ≫= λ dept : string,
              if negb (empty (getitem_mask (read_csv past)
                       (map (λ x : string, startswith x dept) (map course_code past))))
              then
               getitem (getitem_mask (read_csv past)
                    (map (λ x : string, startswith x dept) (map course_code past)))
                 "passed" passed
               ≫= λ dept_passes : list bool, Ok (mean_bool dept_passes)
              else Ok (mean_bool (map passed past))
        else Ok (mean_bool (map passed past))
    | None => Ok (mean_bool (map passed past))
    end = dept_rate past c).
  { unfold dept_rate. destruct c as [c0|]; [|done].
    destruct (truthy c0); [|done]. destruct (split c0) as [|d ds]; [done|].
    cbn [mbind result_bind].
    rewrite (getitem_mask_read_csv past course_code (fun x => startswith x d)).
    fold (dept_rows past d). unfold dept_rate_for. rewrite empty_read_csv.
    destruct (dept_rows past d) as [|r1 dp]; [done|].
    cbn [negb]. by rewrite getitem_read_csv by known_column. }
  rewrite Hdept. destruct (dept_rate past c) as [d|e]; [|done].
  cbn [mbind result_bind]. rewrite empty_read_csv. unfold aggregates.
  destruct (prereq_rows past) as [|r1 pp]; cbn [negb mbind result_bind].
  - done.
  - rewrite !getitem_read_csv by known_column. done.
Qed.

End HistoryLoaded.

(** ** Tokens of a course code *)

Lemma string_of_list_ascii_snoc (l : list ascii) (c : ascii) (t : string) :
  string_of_list_ascii (l ++ [c]) +:+ t = string_of_list_ascii l +:+ String c t.
Proof. induction l as [|a l IH]; [done|]. cbn. unfold String.app in *. cbn. by rewrite IH. Qed.

Lemma append_empty_r (t : string) : t +:+ "" = t.
Proof. induction t as [|a t IH]; [done|]. unfold String.app in *. cbn. by rewrite IH. Qed.

Lemma flush_cons (c : ascii) (tok : list ascii) :
  flush (c :: tok) = [string_of_list_ascii (rev (c :: tok))].
Proof. done. Qed.

Lemma split_from_first_token (s : string) : forall tok : list ascii,
  no_space (before_first_space s) = true ->
  tok <> [] \/ truthy (before_first_space s) = true ->
  exists rest, split_from tok s
    = (string_of_list_ascii (rev tok) +:+ before_first_space s) :: rest.
Proof.
  induction s as [|c s IH]; intros tok Hns Hne.
  - destruct Hne as [Hne|Hne]; [|done]. destruct tok as [|a tok]; [done|].
    exists []. cbn [split_from before_first_space]. by rewrite append_empty_r.
  - cbn [split_from before_first_space] in *.
    destruct (Ascii.eqb_spec c " ") as [->|Hc].
    + destruct Hne as [Hne|Hne]; [|done]. destruct tok as [|a tok]; [done|].
      change (isspace " ") with true. cbv iota. rewrite flush_cons, append_empty_r.
      eexists. reflexivity.
    + cbn [no_space] in Hns. apply andb_prop in Hns as [Hc' Hns].
      apply negb_true_iff in Hc'. rewrite Hc'.
      destruct (IH (c :: tok) Hns) as [rest Hrest]; [by left|].
      exists rest. rewrite Hrest. cbn [rev]. by rewrite string_of_list_ascii_snoc.
Qed.

Lemma split_names_department (c : string) :
  names_department c = true ->
  exists rest, split c = before_first_space c :: rest.
Proof.
  unfold names_department. intros [Ht Hns]%andb_prop.
  destruct (split_from_first_token c [] Hns) as [rest H]; [by right|].
  exists rest. apply H.
Qed.

Lemma split_from_nil (s : string) : forall tok : list ascii,
  split_from tok s = [] -> tok = [] /\ blank s = true.
Proof.
  induction s as [|c s IH]; intros tok H; cbn [split_from blank] in *.
  - by destruct tok.
  - destruct (isspace c).
    + apply app_eq_nil in H as [Hf Hs]. destruct tok; [|done].
      split; [done|]. by apply IH in Hs as [_ ->].
    + by apply IH in H as [? _].
Qed.

Lemma split_not_whitespace_only (c : string) :
  truthy c = true -> whitespace_only c = false ->
  exists d rest, split c = d :: rest.
Proof.
  unfold whitespace_only. intros -> Hb. cbn in Hb.
  destruct (split c) as [|d rest] eqn:Hs; [|by eauto].
  apply split_from_nil in Hs as [_ Hs]. congruence.
Qed.

Lemma names_department_not_whitespace_only (c : string) :
  names_department c = true -> truthy c = true /\ whitespace_only c = false.
Proof.
  unfold names_department, whitespace_only. intros [Ht Hns]%andb_prop.
  destruct c as [|a c]; [done|]. split; [done|]. cbn [truthy andb blank].
  cbn [before_first_space] in *. destruct (Ascii.eqb a " "); [done|].
  cbn [no_space] in Hns. apply andb_prop in Hns as [Ha _].
  apply negb_true_iff in Ha. by rewrite Ha.
Qed.

Lemma blank_rev_app (s acc : string) :
  blank (String.rev_app s acc) = blank s && blank acc.
Proof.
  revert acc. induction s as [|c s IH]; intros acc; cbn [String.rev_app blank]; [done|].
  rewrite IH. cbn [blank]. by destruct (isspace c), (blank s), (blank acc).
Qed.

Lemma blank_rev (s : string) : blank (String.rev s) = blank s.
Proof. unfold String.rev. rewrite blank_rev_app. cbn [blank]. by rewrite andb_true_r. Qed.

Lemma blank_lstrip (s : string) : blank (lstrip s) = true -> lstrip s = "".
Proof.
  induction s as [|c s IH]; cbn [lstrip]; [done|].
  destruct (isspace c) eqn:Hc; [done|]. cbn [blank]. by rewrite Hc.
Qed.

(** The course code that [index] passes on is stripped, so it is never a
    non-empty string of whitespace: line 69 cannot raise in a request. *)
Lemma strip_not_whitespace_only (s : string) : whitespace_only (strip s) = false.
Proof.
  unfold whitespace_only, strip, rstrip.
  destruct (blank (String.rev (lstrip (String.rev (lstrip s))))) eqn:Hb;
    [|by rewrite andb_false_r].
  rewrite blank_rev in Hb. apply blank_lstrip in Hb. by rewrite Hb.
Qed.

(** ** Keys of the history dictionary *)

Lemma fold_insert_constant (v : num) (ks : list string) :
  forall (d : gmap string num) (k : string),
  fold_left (fun d kv => <[kv.1 := kv.2]> d) (map (fun k => (k, v)) ks) d !! k
  = if bool_decide (k ∈ ks) then Some v else d !! k.
Proof.
  induction ks as [|a ks IH]; intros d k; cbn [map fold_left].
  - rewrite bool_decide_eq_false_2; [done|]. apply not_elem_of_nil.
  - rewrite IH. cbn [fst snd]. destruct (decide (k ∈ ks)) as [Hin|Hin].
    + rewrite !bool_decide_eq_true_2; [done| |done]. by apply elem_of_cons; right.
    + rewrite (bool_decide_eq_false_2 _ Hin). destruct (decide (a = k)) as [->|Hne].
      * rewrite lookup_insert_eq. rewrite bool_decide_eq_true_2; [done|].
        by apply elem_of_cons; left.
      * rewrite lookup_insert_ne by done. rewrite bool_decide_eq_false_2; [done|].
        intros [->|?]%elem_of_cons; done.
Qed.

Lemma zero_fill_lookup (FEATURES : list string) (k : string) :
  zero_fill FEATURES !! k
  = if bool_decide (k ∈ FEATURES) && is_history_key k then Some (Num 0) else None.
Proof.
  unfold zero_fill, dict_of_items. rewrite fold_insert_constant, lookup_empty.
  destruct (decide (k ∈ FEATURES)) as [Hin|Hin].
  - rewrite (bool_decide_eq_true_2 _ Hin). cbn [andb].
    destruct (is_history_key k) eqn:Hk.
    + rewrite bool_decide_eq_true_2; [done|].
      apply list_elem_of_In, filter_In. split; [by apply list_elem_of_In|done].
    + rewrite bool_decide_eq_false_2; [done|].
      intros [_ H]%list_elem_of_In%filter_In. congruence.
  - rewrite (bool_decide_eq_false_2 _ Hin). cbn [andb].
    rewrite bool_decide_eq_false_2; [done|].
    intros [H _]%list_elem_of_In%filter_In. by apply Hin, list_elem_of_In.
Qed.

Lemma aggregates_dom past d k : is_Some (aggregates past d !! k) <-> k ∈ HISTORY_KEYS.
Proof.
  unfold aggregates, HISTORY_KEYS.
  rewrite !lookup_insert_is_Some', lookup_empty, is_Some_alt.
  rewrite !elem_of_cons, elem_of_nil. intuition (subst; auto 12).
Qed.

Lemma bind_Ok {A B : Type} (m : result A) (k : A -> result B) (b : B) :
  m ≫= k = Ok b -> exists a, m = Ok a /\ k a = Ok b.
Proof. destruct m as [a|e]; [by exists a|done]. Qed.

Lemma is_Ok_inv {A : Type} (m : result A) : is_Ok m = true -> exists a, m = Ok a.
Proof. destruct m as [a|e]; [by exists a|done]. Qed.

Ltac bind_inv H :=
  let a := fresh "x" in
  let Hm := fresh "Hm" in
  apply bind_Ok in H as (a & Hm & H).

Lemma history_keys_only FEATURES df s c hist k :
  get_history_features FEATURES df s c = Ok hist ->
  is_Some (hist !! k) -> is_history_key k = true.
Proof.
  unfold get_history_features. intros H Hk.
  bind_inv H. destruct (empty _).
  - injection H as <-. rewrite zero_fill_lookup in Hk.
    destruct (is_history_key k); [done|]. rewrite andb_false_r in Hk. by destruct Hk.
  - repeat bind_inv H. injection H as <-.
    rewrite !lookup_insert_is_Some', lookup_empty, is_Some_alt in Hk.
    repeat (destruct Hk as [<-|Hk]; [done|]). done.
Qed.

(** ** The department pass rate *)

Lemma dept_rate_names_department past c :
  names_department c = true ->
  dept_rate past (Some c) = Ok (dept_rate_for past (before_first_space c)).
Proof.
  intros Hc. unfold dept_rate.
  destruct (names_department_not_whitespace_only c Hc) as [-> _].
  by destruct (split_names_department c Hc) as [rest ->].
Qed.

(** C1.  Department fallback.  For a student with at least one record and
    a course code that names a department, [dept_pass_rate] is the overall
    [past_pass_rate] (the mean of [passed] over the past set) when no past
    row is of the department, and otherwise the mean of [passed] over the
    past rows whose course code starts with the department token, the
    substring of the course code before its first space. *)
Theorem dept_pass_rate_fallback FEATURES rs s c :
  recordsFor s rs <> [] ->
  names_department c = true ->
  let past := past_rows (recordsFor s rs) (Some c) in
  let dept := before_first_space c in
  exists feats,
    get_history_features FEATURES (read_csv rs) s (Some c) = Ok feats /\
    feats !! "past_pass_rate" = Some (mean_bool (map passed past)) /\
    (dept_rows past dept = [] ->
     feats !! "dept_pass_rate" = feats !! "past_pass_rate") /\
    (dept_rows past dept <> [] ->
     feats !! "dept_pass_rate" = Some (mean_bool (map passed (dept_rows past dept)))).
Proof.
  intros Hrecs Hc past dept.
  rewrite get_history_features_records by done.
  rewrite dept_rate_names_department by done. cbn [mbind result_bind].
  eexists. split; [reflexivity|]. fold past dept.
  split; [reflexivity|]. unfold dept_rate_for.
  split; intros Hd.
  - rewrite Hd. reflexivity.
  - destruct (dept_rows past dept) as [|r dp]; [done|]. reflexivity.
Qed.

(** Student 1 asks for "CS 103": two past rows are in "CS", one passed. *)
Lemma dept_pass_rate_fallback_witness :
  recordsFor 1 sample_rows <> [] /\
  names_department "CS 103" = true /\
  exists feats,
    get_history_features DEFAULT_FEATURES (read_csv sample_rows) 1 (Some "CS 103")
    = Ok feats /\
    feats !! "past_pass_rate" = Some (Num (2 # 3)) /\
    feats !! "dept_pass_rate" = Some (Num (1 # 2)).
Proof.
  split; [by vm_compute|]. split; [reflexivity|].
  destruct (dept_pass_rate_fallback DEFAULT_FEATURES sample_rows 1 "CS 103")
    as (feats & Hf & Hp & _ & Hd); [by vm_compute|reflexivity|].
  exists feats. split; [exact Hf|]. split.
  - rewrite Hp. reflexivity.
  - rewrite Hd; [reflexivity|by vm_compute].
Defined.

(** ** Self-exclusion *)

Lemma filter_all_false {A} (p : A -> bool) (l : list A) :
  Forall (fun x => p x = false) l -> List.filter p l = [].
Proof. induction 1 as [|x l Hx _ IH]; [done|]. cbn. by rewrite Hx. Qed.

Lemma filter_all_true {A} (p : A -> bool) (l : list A) :
  Forall (fun x => p x = true) l -> List.filter p l = l.
Proof. induction 1 as [|x l Hx _ IH]; [done|]. cbn. by rewrite Hx, IH. Qed.

Lemma past_rows_single_course recs c :
  Forall (fun r => course_code r = c) recs -> past_rows recs (Some c) = recs.
Proof.
  intros Hall. unfold past_rows. rewrite filter_all_false; [done|].
  eapply Forall_impl; [exact Hall|]. cbn. intros r ->. by rewrite String.eqb_refl.
Qed.

Lemma dept_rate_for_single_course recs c d :
  Forall (fun r => course_code r = c) recs ->
  dept_rate_for recs d = mean_bool (map passed recs).
Proof.
  intros Hall. unfold dept_rate_for, dept_rows.
  destruct (startswith c d) eqn:Hcd.
  - rewrite filter_all_true; [by destruct recs|].
    eapply Forall_impl; [exact Hall|]. cbn. by intros r ->.
  - rewrite filter_all_false; [done|].
    eapply Forall_impl; [exact Hall|]. cbn. by intros r ->.
Qed.

(** C4.  Self-exclusion.  When all the records of a student are in one
    course [c], excluding [c] empties the past set, the computation falls
    back to all the records, and [get_history_features] returns for [c] the
    very dictionary it returns for no course.  The course code is not a
    non-empty string of whitespace only, on which [split()[0]] raises: the
    code of a request never is ([strip_not_whitespace_only]), nor is one of
    the form ["<DEPT> <NUMBER>"]. *)
Theorem self_exclusion_same_features FEATURES rs s c :
  Forall (fun r => course_code r = c) (recordsFor s rs) ->
  whitespace_only c = false ->
  exists feats,
    get_history_features FEATURES (read_csv rs) s (Some c) = Ok feats /\
    get_history_features FEATURES (read_csv rs) s None = Ok feats.
Proof.
  intros Hall Hc. destruct (recordsFor s rs) as [|r0 recs] eqn:Hrecs.
  - exists (zero_fill FEATURES). by rewrite !get_history_features_no_records.
  - rewrite !get_history_features_records by (by rewrite Hrecs).
    rewrite Hrecs, past_rows_single_course by done. cbn [past_rows].
    assert (Hrate : dept_rate (r0 :: recs) (Some c)
                    = Ok (mean_bool (map passed (r0 :: recs)))).
    { unfold dept_rate. destruct (truthy c) eqn:Ht; [|done].
      destruct (split_not_whitespace_only c Ht Hc) as (d & rest & ->).
      by rewrite (dept_rate_for_single_course _ c). }
    rewrite Hrate. cbn [dept_rate mbind result_bind]. eauto.
Qed.

(** Student 3 has two records, both in "BIO 110". *)
Lemma self_exclusion_same_features_witness :
  Forall (fun r => course_code r = "BIO 110") (recordsFor 3 sample_rows) /\
  whitespace_only "BIO 110" = false /\
  exists feats,
    get_history_features DEFAULT_FEATURES (read_csv sample_rows) 3 (Some "BIO 110")
    = Ok feats /\
    get_history_features DEFAULT_FEATURES (read_csv sample_rows) 3 None = Ok feats.
Proof.
  assert (H : Forall (fun r => course_code r = "BIO 110") (recordsFor 3 sample_rows))
    by (vm_compute; repeat constructor).
  split; [exact H|]. split; [reflexivity|].
  exact (self_exclusion_same_features DEFAULT_FEATURES sample_rows 3 "BIO 110"
           H eq_refl).
Defined.

(** ** Backfill and merge *)

Section Backfill.

Variable FEATURES : list string.
Variable df : DataFrame.
Variable py_int : string -> result Z.
Variable py_float : string -> result num.

Lemma history_lacks_key s c hist k :
  get_history_features FEATURES df s c = Ok hist ->
  is_history_key k = false -> hist !! k = None.
Proof.
  intros Hh Hk. destruct (hist !! k) as [v|] eqn:Hv; [|done].
  assert (is_history_key k = true) by (eapply history_keys_only; eauto).
  congruence.
Qed.

Lemma backfill_supplied f hist field avg v :
  backfill py_float f hist field avg = Ok v ->
  if supplied f field
  then exists text, f !! field = Some text /\ py_float text = Ok v
  else hist !! avg = Some v.
Proof.
  unfold backfill, supplied, dict_getitem. intros H.
  destruct (f !! field) as [text|].
  - destruct (truthy text); [by exists text|].
    by destruct (hist !! avg) as [w|]; simplify_eq.
  - by destruct (hist !! avg) as [w|]; simplify_eq.
Qed.

Lemma merged_record_inv f data :
  merged_record FEATURES df py_int py_float f = Ok data ->
  exists i hist mid fin asm,
    read_inputs py_int py_float f = Ok i /\
    get_history_features FEATURES df (sid i) (Some (code i)) = Ok hist /\
    backfill py_float f hist "midterm" "past_avg_midterm_score" = Ok mid /\
    backfill py_float f hist "final" "past_avg_final_score" = Ok fin /\
    backfill py_float f hist "assignment" "past_avg_assignment_score" = Ok asm /\
    data = merge i mid fin asm hist.
Proof.
  unfold merged_record. intros H. repeat bind_inv H. injection H as <-.
  eauto 12.
Qed.

Lemma merge_lookup_current i mid fin asm hist k :
  hist !! k = None ->
  merge i mid fin asm hist !! k
  = (<["assignment_score" := asm]>
    (<["final_score" := fin]>
    (<["midterm_score" := mid]>
    (<["attendance_rate" := att i]>
    (<["credits" := cr i]>
    (<["has_prerequisites" := of_int (pre i)]> (∅ : gmap string num))))))) !! k.
Proof. intros Hk. unfold merge. by rewrite lookup_union_r. Qed.

End Backfill.

(** C5.  Backfill.  In the merged record of a request, an optional score
    (midterm, final, assignment) that the caller did not supply has exactly
    the value of the matching [past_avg_*] entry of that student's history
    dictionary, and a supplied one has the value [float()] read from the
    form. *)
Theorem backfill_uses_history_average FEATURES df py_int py_float f data :
  merged_record FEATURES df py_int py_float f = Ok data ->
  exists i hist,
    read_inputs py_int py_float f = Ok i /\
    get_history_features FEATURES df (sid i) (Some (code i)) = Ok hist /\
    forall field key avg, (field, key, avg) ∈ OPTIONAL_SCORES ->
      if supplied f field
      then exists text v,
             f !! field = Some text /\ py_float text = Ok v /\ data !! key = Some v
      else is_Some (hist !! avg) /\ data !! key = hist !! avg.
Proof.
  intros (i & hist & mid & fin & asm & Hi & Hh & Hmid & Hfin & Hasm & ->)%merged_record_inv.
  exists i, hist. do 2 (split; [done|]). intros field key avg Hin.
  assert (Hcur : forall k, is_history_key k = false ->
            merge i mid fin asm hist !! k
            = (<["assignment_score" := asm]>
              (<["final_score" := fin]>
              (<["midterm_score" := mid]>
              (<["attendance_rate" := att i]>
              (<["credits" := cr i]>
              (<["has_prerequisites" := of_int (pre i)]> (∅ : gmap string num))))))) !! k).
  { intros k Hk. apply merge_lookup_current. eapply history_lacks_key; eauto. }
  unfold OPTIONAL_SCORES in Hin.
  repeat (apply elem_of_cons in Hin as [Hin|Hin]; [simplify_eq|]);
    [| | | by apply elem_of_nil in Hin].
  - apply backfill_supplied in Hmid. rewrite Hcur by done.
    destruct (supplied f "midterm").
    + destruct Hmid as (text & ? & ?). by exists text, mid.
    + rewrite Hmid. split; [by eexists|reflexivity].
  - apply backfill_supplied in Hfin. rewrite Hcur by done.
    destruct (supplied f "final").
    + destruct Hfin as (text & ? & ?). by exists text, fin.
    + rewrite Hfin. split; [by eexists|reflexivity].
  - apply backfill_supplied in Hasm. rewrite Hcur by done.
    destruct (supplied f "assignment").
    + destruct Hasm as (text & ? & ?). by exists text, asm.
    + rewrite Hasm. split; [by eexists|reflexivity].
Qed.

(** Student 1 asks for "CS 103" with the final score filled in only. *)
Lemma backfill_uses_history_average_witness :
  exists data hist,
    merged_record DEFAULT_FEATURES (read_csv sample_rows) int_of_decimal
      float_of_decimal (sample_form "1" "CS 103" "1" "3" "80" [("final", "77")])
    = Ok data /\
    get_history_features DEFAULT_FEATURES (read_csv sample_rows) 1 (Some "CS 103")
    = Ok hist /\
    data !! "midterm_score" = hist !! "past_avg_midterm_score" /\
    data !! "final_score" = Some (Num 77).
Proof.
  set (f := sample_form "1" "CS 103" "1" "3" "80" [("final", "77")]).
  destruct (is_Ok_inv (merged_record DEFAULT_FEATURES (read_csv sample_rows)
                         int_of_decimal float_of_decimal f)) as [data Hd];
    [vm_compute; reflexivity|].
  destruct (backfill_uses_history_average _ _ _ _ _ _ Hd) as (i & hist & Hi & Hh & Hs).
  assert (i = {| sid := 1; code := "CS 103"; pre := 1; cr := Num 3; att := Num 80 |})
    as -> by (vm_compute in Hi; congruence).
  exists data, hist. split; [exact Hd|]. split; [exact Hh|]. split.
  - assert (Hin : ("midterm", "midterm_score", "past_avg_midterm_score") ∈ OPTIONAL_SCORES)
      by (apply elem_of_cons; by left).
    apply Hs in Hin. change (supplied f "midterm") with false in Hin. by destruct Hin.
  - assert (Hin : ("final", "final_score", "past_avg_final_score") ∈ OPTIONAL_SCORES)
      by (apply elem_of_cons; right; apply elem_of_cons; by left).
    apply Hs in Hin. change (supplied f "final") with true in Hin.
    destruct Hin as (text & v & Ht & Hv & ->).
    vm_compute in Ht. injection Ht as <-. vm_compute in Hv. congruence.
Defined.

(** ** The scenario *)

Lemma backfill_omitted py_float f hist field avg :
  supplied f field = false ->
  backfill py_float f hist field avg = dict_getitem hist avg.
Proof.
  unfold backfill, supplied. intros H. destruct (f !! field) as [text|]; [|done].
  by rewrite H.
Qed.

(** C8.  The scenario of the specification.  Student 42 has exactly two
    records, both in "MATH 201": (total 70, midterm 65, final 75,
    assignment 70, attendance 90, passed) and (total 40, midterm 35, final
    45, assignment 40, attendance 60, failed).  A request for "MATH 201"
    without midterm, final and assignment gets the backfilled midterm 50,
    final 60 and assignment 55, with [past_avg_attendance] 75,
    [past_pass_rate] 1/2 and [courses_taken] 2. *)
Theorem scenario_student_42 FEATURES rs py_int py_float f i b1 b2 :
  Permutation [scenario_first b1; scenario_second b2] (recordsFor 42 rs) ->
  read_inputs py_int py_float f = Ok i ->
  sid i = 42 -> code i = "MATH 201" ->
  supplied f "midterm" = false ->
  supplied f "final" = false ->
  supplied f "assignment" = false ->
  exists hist data,
    get_history_features FEATURES (read_csv rs) 42 (Some "MATH 201") = Ok hist /\
    merged_record FEATURES (read_csv rs) py_int py_float f = Ok data /\
    data !! "midterm_score" = Some (Num 50) /\
    data !! "final_score" = Some (Num 60) /\
    data !! "assignment_score" = Some (Num 55) /\
    hist !! "past_avg_attendance" = Some (Num 75) /\
    hist !! "past_pass_rate" = Some (Num (1 # 2)) /\
    hist !! "courses_taken" = Some (Num 2) /\
    data !! "past_avg_attendance" = Some (Num 75) /\
    data !! "past_pass_rate" = Some (Num (1 # 2)) /\
    data !! "courses_taken" = Some (Num 2).
Proof.
  intros Hrecs Hi Hsid Hcode Hmid Hfin Hasm.
  apply Permutation_length_2_inv in Hrecs.
  assert (Hh : exists past d,
    get_history_features FEATURES (read_csv rs) 42 (Some "MATH 201")
    = Ok (aggregates past d)
    /\ (past = [scenario_first b1; scenario_second b2]
        \/ past = [scenario_second b2; scenario_first b1])).
  { rewrite get_history_features_records by (by destruct Hrecs as [-> | ->]).
    destruct Hrecs as [-> | ->]; eexists _, _; (split; [reflexivity|]); auto. }
  destruct Hh as (past & d & Hh & Hpast).
  eexists _, _. split; [exact Hh|].
  unfold merged_record. rewrite Hi. cbn [mbind result_bind].
  rewrite Hsid, Hcode, Hh. cbn [mbind result_bind].
  rewrite !backfill_omitted by done.
  split; [reflexivity|].
  destruct Hpast as [-> | ->], b1, b2; repeat split; reflexivity.
Qed.

(** The scenario among the sample rows, read with the decimal numerals. *)
Lemma scenario_student_42_witness :
  exists hist data,
    get_history_features DEFAULT_FEATURES
      (read_csv (scenario_first true :: sample_rows ++ [scenario_second false]))
      42 (Some "MATH 201") = Ok hist /\
    merged_record DEFAULT_FEATURES
      (read_csv (scenario_first true :: sample_rows ++ [scenario_second false]))
      int_of_decimal float_of_decimal (sample_form "42" "MATH 201" "1" "3" "80" [])
    = Ok data /\
    data !! "midterm_score" = Some (Num 50) /\
    data !! "final_score" = Some (Num 60) /\
    data !! "assignment_score" = Some (Num 55) /\
    hist !! "past_avg_attendance" = Some (Num 75) /\
    hist !! "past_pass_rate" = Some (Num (1 # 2)) /\
    hist !! "courses_taken" = Some (Num 2).
Proof.
  destruct (scenario_student_42 DEFAULT_FEATURES
              (scenario_first true :: sample_rows ++ [scenario_second false])
              int_of_decimal float_of_decimal
              (sample_form "42" "MATH 201" "1" "3" "80" [])
              {| sid := 42; code := "MATH 201"; pre := 1; cr := Num 3; att := Num 80 |}
              true false)
    as (hist & data & Hh & Hd & Hmid & Hfin & Hasm & Hatt & Hrate & Hn & _);
    [vm_compute; reflexivity | vm_compute; reflexivity | reflexivity..|].
  exists hist, data. repeat split; assumption.
Defined.

(** ** Projection onto the feature list *)

Section Schema.

Variable data : gmap string num.

Lemma select_columns_Ok (labels : list string) (row : list (string * num)) :
  select_columns data labels = Ok row ->
  map fst row = labels /\ Forall (fun kv => data !! kv.1 = Some kv.2) row.
Proof.
  revert row. induction labels as [|k ks IH]; intros row H; cbn [select_columns] in H.
  - injection H as <-. by split.
  - bind_inv H. bind_inv H. injection H as <-.
    destruct (IH _ Hm0) as [Hkeys Hvals]. cbn [map fst]. split; [by rewrite Hkeys|].
    constructor; [|done]. cbn [fst snd]. unfold dict_getitem in Hm.
    by destruct (data !! k); simplify_eq.
Qed.

Lemma select_columns_present (labels : list string) :
  (forall k, k ∈ labels -> is_Some (data !! k)) ->
  exists row, select_columns data labels = Ok row.
Proof.
  induction labels as [|k ks IH]; intros Hall; cbn [select_columns].
  - by eexists.
  - destruct (Hall k) as [v Hv]; [by apply elem_of_cons; left|].
    destruct IH as [row Hrow]; [intros k' ?; apply Hall; by apply elem_of_cons; right|].
    unfold dict_getitem. rewrite Hv, Hrow. by eexists.
Qed.

Lemma select_columns_absent (labels : list string) (k : string) :
  k ∈ labels -> data !! k = None ->
  exists k', k' ∈ labels /\ data !! k' = None
             /\ select_columns data labels = Raise (KeyError k').
Proof.
  induction labels as [|a ks IH]; intros Hin Hk.
  - by apply elem_of_nil in Hin.
  - cbn [select_columns]. unfold dict_getitem. destruct (data !! a) as [v|] eqn:Ha.
    + apply elem_of_cons in Hin as [->|Hin]; [congruence|].
      destruct (IH Hin Hk) as (k' & Hk' & Hnone & ->).
      exists k'. split; [by apply elem_of_cons; right|done].
    + exists a. split; [by apply elem_of_cons; left|done].
Qed.

End Schema.

(** C9.  Schema.  The row handed to the classifier has exactly the keys of
    [FEATURES], in the order of [FEATURES], each with its value in the
    merged record, whatever else the merged record holds; when a key of
    [FEATURES] is absent from the merged record the selection raises
    [KeyError], nothing is scored and the request ends on the error page. *)
Theorem schema_projection FEATURES df py_int py_float predict_proba f data :
  merged_record FEATURES df py_int py_float f = Ok data ->
  (forall row, select_columns data FEATURES = Ok row ->
     map fst row = FEATURES /\
     Forall (fun kv => data !! kv.1 = Some kv.2) row /\
     predict FEATURES df py_int py_float predict_proba f
     = (proba ← predict_proba row; Ok (classify proba, proba))) /\
  ((forall k, k ∈ FEATURES -> is_Some (data !! k)) ->
     exists row, select_columns data FEATURES = Ok row) /\
  (forall k, k ∈ FEATURES -> data !! k = None ->
     (exists k', k' ∈ FEATURES /\ data !! k' = None /\
        predict FEATURES df py_int py_float predict_proba f = Raise (KeyError k')) /\
     index FEATURES df py_int py_float predict_proba (post f) = error_page).
Proof.
  intros Hd. split; [|split].
  - intros row Hrow. destruct (select_columns_Ok _ _ _ Hrow) as [Hk Hv].
    do 2 (split; [done|]). unfold predict. by rewrite Hd; cbn [mbind result_bind]; rewrite Hrow.
  - apply select_columns_present.
  - intros k Hin Hk.
    destruct (select_columns_absent data FEATURES k Hin Hk) as (k' & Hin' & Hk' & Hsel).
    assert (Hp : predict FEATURES df py_int py_float predict_proba f = Raise (KeyError k')).
    { unfold predict. by rewrite Hd; cbn [mbind result_bind]; rewrite Hsel. }
    split; [by exists k'|]. unfold index, post; cbn [method form]. by rewrite Hp.
Qed.
(** Student 1 asks for "CS 103" under the default feature list. *)
Lemma schema_projection_witness :
  exists data row,
    merged_record DEFAULT_FEATURES (read_csv sample_rows) int_of_decimal
      float_of_decimal (sample_form "1" "CS 103" "1" "3" "80" []) = Ok data /\
    select_columns data DEFAULT_FEATURES = Ok row /\
    map fst row = DEFAULT_FEATURES.
Proof.
  set (f := sample_form "1" "CS 103" "1" "3" "80" []).
  assert (Hok : is_Ok (data ← merged_record DEFAULT_FEATURES (read_csv sample_rows)
                                int_of_decimal float_of_decimal f;
                       select_columns data DEFAULT_FEATURES) = true)
    by (vm_compute; reflexivity).
  destruct (merged_record DEFAULT_FEATURES (read_csv sample_rows) int_of_decimal
              float_of_decimal f) as [data|e] eqn:Hd; [|discriminate Hok].
  cbn [mbind result_bind] in Hok. apply is_Ok_inv in Hok as [row Hsel].
  destruct (schema_projection DEFAULT_FEATURES (read_csv sample_rows) int_of_decimal
              float_of_decimal sample_model f data Hd) as (Hrow & _ & _).
  destruct (Hrow row Hsel) as (Hkeys & _ & _).
  exists data, row. by repeat split.
Defined.

(** ** The threshold *)

Lemma classify_Yes (p : Q) : classify p = "Yes" <-> (1 # 2 <= p)%Q.
Proof.
  unfold classify. destruct (Qle_bool (1 # 2) p) eqn:H.
  - by apply Qle_bool_iff in H.
  - split; [done|]. intros Hle%Qle_bool_iff. congruence.
Qed.

Lemma classify_No (p : Q) : classify p = "No" <-> (p < 1 # 2)%Q.
Proof.
  unfold classify. destruct (Qle_bool (1 # 2) p) eqn:H.
  - apply Qle_bool_iff in H. split; [done|]. intros Hlt. by apply Qlt_not_le in Hlt.
  - split; [|done]. intros _. apply Qnot_le_lt. intros Hle%Qle_bool_iff. congruence.
Qed.

(** C7.  Threshold.  Whatever probability [p] the classifier returns for
    the row of a request, the page reports [p] itself and the label "Yes"
    (pass) exactly when [p >= 0.5], "No" (fail) exactly when [p < 0.5]; at
    [p = 0.5] the label is "Yes". *)
Theorem threshold_consistency FEATURES df py_int py_float predict_proba f data row p :
  merged_record FEATURES df py_int py_float f = Ok data ->
  select_columns data FEATURES = Ok row ->
  predict_proba row = Ok p ->
  exists label,
    index FEATURES df py_int py_float predict_proba (post f)
    = {| prediction := Some label; probability := Some p; flashed := [] |} /\
    (label = "Yes" <-> (1 # 2 <= p)%Q) /\
    (label = "No" <-> (p < 1 # 2)%Q) /\
    classify (1 # 2) = "Yes".
Proof.
  intros Hd Hrow Hp. exists (classify p). split; [|split; [|split]].
  - unfold index, post, predict; cbn [method form].
    rewrite Hd; cbn [mbind result_bind]. rewrite Hrow; cbn [mbind result_bind].
    by rewrite Hp.
  - apply classify_Yes.
  - apply classify_No.
  - reflexivity.
Qed.

(** Student 1 asks for "CS 103"; the sample classifier answers 0.7. *)
Lemma threshold_consistency_witness :
  index DEFAULT_FEATURES (read_csv sample_rows) int_of_decimal float_of_decimal
    sample_model (post (sample_form "1" "CS 103" "1" "3" "80" []))
  = {| prediction := Some "Yes"; probability := Some (7 # 10)%Q; flashed := [] |}.
Proof.
  set (f := sample_form "1" "CS 103" "1" "3" "80" []).
  assert (Hok : is_Ok (data ← merged_record DEFAULT_FEATURES (read_csv sample_rows)
                                int_of_decimal float_of_decimal f;
                       select_columns data DEFAULT_FEATURES) = true)
    by (vm_compute; reflexivity).
  destruct (merged_record DEFAULT_FEATURES (read_csv sample_rows) int_of_decimal
              float_of_decimal f) as [data|e] eqn:Hd; [|discriminate Hok].
  cbn [mbind result_bind] in Hok. apply is_Ok_inv in Hok as [row Hsel].
  destruct (threshold_consistency DEFAULT_FEATURES (read_csv sample_rows)
              int_of_decimal float_of_decimal sample_model f data row (7 # 10)%Q
              Hd Hsel eq_refl) as (label & Hpage & Hyes & _ & _).
  rewrite Hpage. f_equal. f_equal. by apply Hyes.
Defined.

(** ** Requests that are rejected, and requests that are not *)

Section Rejection.

Variable FEATURES : list string.
Variable df : DataFrame.
Variable py_int : string -> result Z.
Variable py_float : string -> result num.
Variable predict_proba : list (string * num) -> result Q.

Lemma predict_read_inputs_Raise f e :
  read_inputs py_int py_float f = Raise e ->
  predict FEATURES df py_int py_float predict_proba f = Raise e.
Proof. intros H. unfold predict, merged_record. by rewrite H. Qed.

Lemma index_Raise f e :
  predict FEATURES df py_int py_float predict_proba f = Raise e ->
  index FEATURES df py_int py_float predict_proba (post f) = error_page.
Proof. intros H. unfold index, post; cbn [method form]. by rewrite H. Qed.

Lemma read_inputs_Raise f :
  unreadable py_int f "student_id" \/
  f !! "course_code" = None \/
  unreadable py_int f "has_prerequisites" \/
  unreadable py_float f "credits" \/
  unreadable py_float f "attendance" ->
  exists e, read_inputs py_int py_float f = Raise e.
Proof.
  unfold read_inputs, unreadable, dict_getitem. intros H.
  destruct (f !! "student_id") as [t1|]; [|by eexists]. cbn [mbind result_bind].
  destruct (py_int t1) as [s|e1]; [|by eexists]. cbn [mbind result_bind].
  destruct H as [[e He]|H]; [done|].
  destruct (f !! "course_code") as [t2|]; [|by eexists]. cbn [mbind result_bind].
  destruct H as [?|H]; [done|].
  destruct (f !! "has_prerequisites") as [t3|]; [|by eexists]. cbn [mbind result_bind].
  destruct (py_int t3) as [p|e3]; [|by eexists]. cbn [mbind result_bind].
  destruct H as [[e He]|H]; [done|].
  destruct (f !! "credits") as [t4|]; [|by eexists]. cbn [mbind result_bind].
  destruct (py_float t4) as [c|e4]; [|by eexists]. cbn [mbind result_bind].
  destruct H as [[e He]|H]; [done|].
  destruct (f !! "attendance") as [t5|]; [|by eexists]. cbn [mbind result_bind].
  destruct (py_float t5) as [a|e5]; [|by eexists]. cbn [mbind result_bind].
  by destruct H as [e He].
Qed.

End Rejection.

(** C3, amended.  A request in which a required field (student_id,
    course_code, has_prerequisites, credits, attendance) is absent, or in
    which [int()] or [float()] raises on the text of student_id,
    has_prerequisites, credits or attendance, ends on the error page, with
    the message flashed and no prediction, whatever the dataset and the
    classifier: nothing is derived or scored, and nothing is raised out of
    the handler.  The handler checks neither that has_prerequisites is 0 or
    1 nor that course_code is non-empty. *)
Theorem unreadable_input_rejected FEATURES df py_int py_float predict_proba f :
  unreadable py_int f "student_id" \/
  f !! "course_code" = None \/
  unreadable py_int f "has_prerequisites" \/
  unreadable py_float f "credits" \/
  unreadable py_float f "attendance" ->
  (exists e, read_inputs py_int py_float f = Raise e) /\
  index FEATURES df py_int py_float predict_proba (post f) = error_page.
Proof.
  intros H. destruct (read_inputs_Raise py_int py_float f H) as [e He].
  split; [by exists e|]. eapply index_Raise, predict_read_inputs_Raise, He.
Qed.

(** A form whose has_prerequisites reads "yes". *)
Lemma unreadable_input_rejected_witness :
  index DEFAULT_FEATURES (read_csv sample_rows) int_of_decimal float_of_decimal
    sample_model (post (sample_form "1" "CS 103" "yes" "3" "80" []))
  = error_page.
Proof.
  apply (unreadable_input_rejected DEFAULT_FEATURES (read_csv sample_rows)
           int_of_decimal float_of_decimal sample_model
           (sample_form "1" "CS 103" "yes" "3" "80" [])).
  right; right; left. vm_compute. by eexists.
Defined.

(** C3 fails as stated: a request with has_prerequisites 5, and a request
    with an empty course code, are both scored. *)
Lemma unchecked_inputs_are_scored :
  int_of_decimal "5" = Ok 5 /\
  index DEFAULT_FEATURES (read_csv sample_rows) int_of_decimal float_of_decimal
    sample_model (post (sample_form "1" "CS 103" "5" "3" "80" []))
  = {| prediction := Some "Yes"; probability := Some (7 # 10)%Q; flashed := [] |} /\
  strip "" = "" /\
  index DEFAULT_FEATURES (read_csv sample_rows) int_of_decimal float_of_decimal
    sample_model (post (sample_form "1" "" "1" "3" "80" []))
  = {| prediction := Some "Yes"; probability := Some (7 # 10)%Q; flashed := [] |}.
Proof. repeat split; vm_compute; reflexivity. Qed.

(** ** A dataset that failed to load *)

(** C2 (the code at the failing input).  With [pd.DataFrame()] in place of
    the dataset, line 52 raises [KeyError] on the column student_id for every
    student, so the zero fill is never reached and every submitted request
    ends on the error page, without a prediction. *)
Theorem failed_load_fails_every_request FEATURES py_int py_float predict_proba f s c :
  get_history_features FEATURES DataFrame_empty s c = Raise (KeyError "student_id") /\
  index FEATURES DataFrame_empty py_int py_float predict_proba (post f) = error_page.
Proof.
  split; [reflexivity|].
  destruct (read_inputs py_int py_float f) as [i|e] eqn:Hi.
  - apply (index_Raise _ _ _ _ _ _ (KeyError "student_id")).
    unfold predict, merged_record. by rewrite Hi.
  - eapply index_Raise, predict_read_inputs_Raise, Hi.
Qed.

(** For contrast, a dataset that loaded with no row at all takes the zero
    fill and the same request is scored. *)
Lemma loaded_empty_dataset_scores :
  index DEFAULT_FEATURES (read_csv []) int_of_decimal float_of_decimal
    sample_model (post (sample_form "42" "MATH 201" "1" "3" "80" []))
  = {| prediction := Some "Yes"; probability := Some (7 # 10)%Q; flashed := [] |}.
Proof. vm_compute. reflexivity. Qed.

(** ** The zero fill *)

Lemma history_keys_are_history_key k : k ∈ HISTORY_KEYS -> is_history_key k = true.
Proof.
  unfold HISTORY_KEYS. intros Hin.
  repeat (apply elem_of_cons in Hin as [->|Hin]; [reflexivity|]).
  by apply elem_of_nil in Hin.
Qed.

(** C6, amended.  For a student with no record in a loaded dataset, and
    any course code, [get_history_features] returns the names of [FEATURES]
    that start with "past_" or are one of courses_taken, dept_pass_rate,
    prereq_avg_score, prereq_pass_rate, each with value 0, and nothing
    else; so each of the ten history-derived names that [FEATURES] lists
    is returned with value 0. *)
Theorem no_history_zero_fill FEATURES rs s c :
  recordsFor s rs = [] ->
  exists feats,
    get_history_features FEATURES (read_csv rs) s c = Ok feats /\
    (forall k, feats !! k
       = if bool_decide (k ∈ FEATURES) && is_history_key k then Some (Num 0) else None) /\
    (forall k, k ∈ HISTORY_KEYS -> k ∈ FEATURES -> feats !! k = Some (Num 0)).
Proof.
  intros Hnone. exists (zero_fill FEATURES).
  split; [by apply get_history_features_no_records|].
  split; [apply zero_fill_lookup|].
  intros k Hk Hin. rewrite zero_fill_lookup.
  by rewrite (bool_decide_eq_true_2 _ Hin), history_keys_are_history_key.
Qed.

(** Student 9 has no record; the default list names all ten keys. *)
Lemma no_history_zero_fill_witness :
  exists feats,
    get_history_features DEFAULT_FEATURES (read_csv sample_rows) 9 (Some "CS 101")
    = Ok feats /\
    Forall (fun k => feats !! k = Some (Num 0)) HISTORY_KEYS.
Proof.
  destruct (no_history_zero_fill DEFAULT_FEATURES sample_rows 9 (Some "CS 101") eq_refl)
    as (feats & Hf & _ & Hzero).
  exists feats. split; [exact Hf|].
  apply Forall_forall. intros k Hk. apply Hzero; [exact Hk|].
  unfold HISTORY_KEYS in Hk. unfold DEFAULT_FEATURES.
  repeat (apply elem_of_cons in Hk as [->|Hk]; [by repeat constructor|]).
  by apply elem_of_nil in Hk.
Defined.

(** C6 fails as stated: under a feature list without courses_taken and
    past_avg_midterm_score, the zero fill has neither key. *)
Lemma zero_fill_misses_absent_features :
  recordsFor 9 sample_rows = [] /\
  exists feats,
    get_history_features
      ["has_prerequisites"; "credits"; "attendance_rate"; "midterm_score";
       "past_avg_total_score"; "past_pass_rate"]
      (read_csv sample_rows) 9 (Some "CS 101") = Ok feats /\
    feats !! "past_pass_rate" = Some (Num 0) /\
    feats !! "courses_taken" = None /\
    feats !! "past_avg_midterm_score" = None.
Proof. split; [reflexivity|]. eexists. repeat split; vm_compute; reflexivity. Qed.

(** ** The two key sets of the history dictionary *)

Lemma dept_rate_Ok past c :
  (forall c', c = Some c' -> whitespace_only c' = false) ->
  exists d, dept_rate past c = Ok d.
Proof.
  intros Hc. unfold dept_rate. destruct c as [c'|]; [|by eexists].
  destruct (truthy c') eqn:Ht; [|by eexists].
  destruct (split_not_whitespace_only c' Ht (Hc c' eq_refl)) as (d & rest & ->).
  by eexists.
Qed.

(** C10.  The keys of the history dictionary differ between the two
    branches.  With a record, they are the ten history-derived names,
    whatever [FEATURES] is.  Without a record, they are the history-derived
    names that [FEATURES] lists, so one of the ten is a key exactly when
    [FEATURES] has it; then, when [FEATURES] omits the [past_avg_*] name of
    an optional score that the request leaves out, the backfill looks up a
    missing key: the merge raises (for the midterm, [KeyError] on that very
    name) and the request ends on the error page instead of backfilling. *)
Theorem history_key_sets_differ FEATURES rs s c :
  (recordsFor s rs <> [] ->
   (forall c', c = Some c' -> whitespace_only c' = false) ->
   exists feats,
     get_history_features FEATURES (read_csv rs) s c = Ok feats /\
     forall k, is_Some (feats !! k) <-> k ∈ HISTORY_KEYS) /\
  (recordsFor s rs = [] ->
   exists feats,
     get_history_features FEATURES (read_csv rs) s c = Ok feats /\
     (forall k, is_Some (feats !! k) <-> k ∈ FEATURES /\ is_history_key k = true) /\
     (forall k, k ∈ HISTORY_KEYS -> is_Some (feats !! k) <-> k ∈ FEATURES)) /\
  (recordsFor s rs = [] ->
   forall py_int py_float predict_proba f i field key avg,
     read_inputs py_int py_float f = Ok i -> sid i = s ->
     (field, key, avg) ∈ OPTIONAL_SCORES ->
     supplied f field = false -> avg ∉ FEATURES ->
     (exists e, merged_record FEATURES (read_csv rs) py_int py_float f = Raise e) /\
     (field = "midterm" ->
      merged_record FEATURES (read_csv rs) py_int py_float f = Raise (KeyError avg)) /\
     index FEATURES (read_csv rs) py_int py_float predict_proba (post f) = error_page).
Proof.
  split; [|split].
  - intros Hsome Hc. rewrite get_history_features_records by done.
    destruct (dept_rate_Ok (past_rows (recordsFor s rs) c) c Hc) as [d ->].
    cbn [mbind result_bind]. eexists. split; [reflexivity|]. apply aggregates_dom.
  - intros Hnone. exists (zero_fill FEATURES).
    split; [by apply get_history_features_no_records|].
    assert (Hdom : forall k, is_Some (zero_fill FEATURES !! k)
                             <-> k ∈ FEATURES /\ is_history_key k = true).
    { intros k. rewrite zero_fill_lookup. destruct (decide (k ∈ FEATURES)) as [Hin|Hin].
      - rewrite (bool_decide_eq_true_2 _ Hin). cbn [andb].
        destruct (is_history_key k); [by split; [|eexists]|].
        split; [by intros [? ?]|by intros [_ ?]].
      - rewrite (bool_decide_eq_false_2 _ Hin). cbn [andb].
        split; [by intros [? ?]|by intros [? _]]. }
    split; [exact Hdom|]. intros k Hk. rewrite Hdom.
    pose proof (history_keys_are_history_key k Hk). tauto.
  - intros Hnone py_int py_float predict_proba f i field key avg Hi Hs Hin Hsup Havg.
    assert (Hmiss : zero_fill FEATURES !! avg = None).
    { rewrite zero_fill_lookup. by rewrite (bool_decide_eq_false_2 _ Havg). }
    assert (Hm : exists e,
              merged_record FEATURES (read_csv rs) py_int py_float f = Raise e
              /\ (field = "midterm" -> e = KeyError avg)).
    { unfold merged_record. rewrite Hi. cbn [mbind result_bind].
      rewrite Hs, get_history_features_no_records by done. cbn [mbind result_bind].
      unfold OPTIONAL_SCORES in Hin.
      repeat (apply elem_of_cons in Hin as [Hin|Hin]; [simplify_eq|]);
        [| | |by apply elem_of_nil in Hin].
      - rewrite (backfill_omitted _ _ _ "midterm") by done.
        unfold dict_getitem at 1. rewrite Hmiss. by eexists.
      - destruct (backfill py_float f _ "midterm" _) as [mid|e]; [|by eexists].
        cbn [mbind result_bind].
        rewrite (backfill_omitted _ _ _ "final") by done.
        unfold dict_getitem at 1. rewrite Hmiss. by eexists.
      - destruct (backfill py_float f _ "midterm" _) as [mid|e]; [|by eexists].
        cbn [mbind result_bind].
        destruct (backfill py_float f _ "final" _) as [fin|e]; [|by eexists].
        cbn [mbind result_bind].
        rewrite (backfill_omitted _ _ _ "assignment") by done.
        unfold dict_getitem at 1. rewrite Hmiss. by eexists. }
    destruct Hm as (e & He & Hmid). split; [by exists e|].
    split; [by intros ->%Hmid|].
    apply (index_Raise _ _ _ _ _ _ e). unfold predict. by rewrite He.
Qed.

(** Under the list credits, midterm_score: student 1 has the ten keys, and
    the request of student 9, who has no record, fails on the backfill. *)
Lemma history_key_sets_differ_witness :
  (exists feats,
     get_history_features ["credits"; "midterm_score"] (read_csv sample_rows) 1
       (Some "CS 103") = Ok feats /\
     forall k, is_Some (feats !! k) <-> k ∈ HISTORY_KEYS) /\
  merged_record ["credits"; "midterm_score"] (read_csv sample_rows) int_of_decimal
    float_of_decimal (sample_form "9" "CS 103" "1" "3" "80" [])
  = Raise (KeyError "past_avg_midterm_score") /\
  index ["credits"; "midterm_score"] (read_csv sample_rows) int_of_decimal
    float_of_decimal sample_model (post (sample_form "9" "CS 103" "1" "3" "80" []))
  = error_page.
Proof.
  split.
  - apply (history_key_sets_differ ["credits"; "midterm_score"] sample_rows 1
             (Some "CS 103")); [by vm_compute|].
    intros c' [= <-]. reflexivity.
  - destruct (history_key_sets_differ ["credits"; "midterm_score"] sample_rows 9
                (Some "CS 103")) as (_ & _ & Hfail).
    destruct (Hfail eq_refl int_of_decimal float_of_decimal sample_model
                (sample_form "9" "CS 103" "1" "3" "80" [])
                {| sid := 9; code := "CS 103"; pre := 1; cr := Num 3; att := Num 80 |}
                "midterm" "midterm_score" "past_avg_midterm_score")
      as (_ & Hmid & Hpage).
    + vm_compute. reflexivity.
    + reflexivity.
    + apply elem_of_cons. by left.
    + reflexivity.
    + intros Hin. repeat (apply elem_of_cons in Hin as [Hin|Hin]; [discriminate|]).
      by apply elem_of_nil in Hin.
    + split; [by apply Hmid|exact Hpage].
Defined.

(** * Further properties of the code *)

(** ** Prerequisite features and the past set *)

Section PastSet.

Variable FEATURES : list string.
Variable rs : list HistoricalRecord.
Variable s : Z.

(** X1.  Lines 74-77.  For a student with a record, [prereq_avg_score] and
    [prereq_pass_rate] are the means of [total_score] and of [passed] over
    the past rows that have prerequisites; when no past row has, they are
    [past_avg_total_score] and [past_pass_rate]. *)
Theorem prereq_features_fallback (c : option string) :
  recordsFor s rs <> [] ->
  (forall c', c = Some c' -> whitespace_only c' = false) ->
  let past := past_rows (recordsFor s rs) c in
  exists feats,
    get_history_features FEATURES (read_csv rs) s c = Ok feats /\
    (prereq_rows past = [] ->
     feats !! "prereq_avg_score" = feats !! "past_avg_total_score" /\
     feats !! "prereq_pass_rate" = feats !! "past_pass_rate") /\
    (prereq_rows past <> [] ->
     feats !! "prereq_avg_score" = Some (mean (map total_score (prereq_rows past))) /\
     feats !! "prereq_pass_rate" = Some (mean_bool (map passed (prereq_rows past)))).
Proof.
  intros Hrecs Hc past. rewrite get_history_features_records by done.
  destruct (dept_rate_Ok (past_rows (recordsFor s rs) c) c Hc) as [d ->].
  cbn [mbind result_bind]. fold past. eexists. split; [reflexivity|].
  unfold aggregates. split; intros Hp.
  - rewrite Hp. by split.
  - destruct (prereq_rows past) as [|r pp]; [done|]. by split.
Qed.

Lemma past_rows_nonempty recs c : recs <> [] -> past_rows recs c <> [].
Proof.
  intros Hrecs. unfold past_rows. destruct c as [c|]; [|done].
  by destruct (List.filter _ recs).
Qed.

Lemma filter_length_le {A} (p : A -> bool) (l : list A) :
  (length (List.filter p l) <= length l)%nat.
Proof. induction l as [|x l IH]; [done|]. cbn. destruct (p x); cbn; lia. Qed.

Lemma past_rows_length recs c :
  recs <> [] -> (1 <= length (past_rows recs c) <= length recs)%nat.
Proof.
  intros Hrecs. split.
  - pose proof (past_rows_nonempty recs c Hrecs). destruct (past_rows recs c); [done|cbn; lia].
  - unfold past_rows. destruct c as [c|]; [|done].
    pose proof (filter_length_le (fun r => negb (String.eqb (course_code r) c)) recs).
    by destruct (List.filter _ recs).
Qed.

(** X2.  Lines 55-57 and 65.  For a student with a record, [courses_taken]
    is the number of rows of the past set: at least 1, at most the number
    of the student's records, and all of them when no course is given. *)
Theorem courses_taken_counts_past (c : option string) :
  recordsFor s rs <> [] ->
  (forall c', c = Some c' -> whitespace_only c' = false) ->
  exists feats (n : nat),
    get_history_features FEATURES (read_csv rs) s c = Ok feats /\
    feats !! "courses_taken" = Some (of_int (Z.of_nat n)) /\
    n = length (past_rows (recordsFor s rs) c) /\
    (1 <= n <= length (recordsFor s rs))%nat /\
    (c = None -> n = length (recordsFor s rs)).
Proof.
  intros Hrecs Hc. rewrite get_history_features_records by done.
  destruct (dept_rate_Ok (past_rows (recordsFor s rs) c) c Hc) as [d ->].
  cbn [mbind result_bind]. eexists _, _. split; [reflexivity|].
  split; [reflexivity|]. split; [reflexivity|].
  split; [by apply past_rows_length|]. by intros ->.
Qed.

End PastSet.

(** Student 1 asks for "CS 103": one past row has prerequisites, total 45,
    failed. *)
Lemma prereq_features_fallback_witness :
  exists feats,
    get_history_features DEFAULT_FEATURES (read_csv sample_rows) 1 (Some "CS 103")
    = Ok feats /\
    feats !! "prereq_avg_score" = Some (Num 45) /\
    feats !! "prereq_pass_rate" = Some (Num 0).
Proof.
  destruct (prereq_features_fallback DEFAULT_FEATURES sample_rows 1 (Some "CS 103"))
    as (feats & Hf & _ & Hsome); [by vm_compute|by intros c' [= <-]|].
  destruct Hsome as [Havg Hrate]; [by vm_compute|].
  exists feats. split; [exact Hf|]. split; [rewrite Havg|rewrite Hrate]; reflexivity.
Defined.

(** Student 1 asks for "CS 101": the two other records are the past set. *)
Lemma courses_taken_counts_past_witness :
  exists feats,
    get_history_features DEFAULT_FEATURES (read_csv sample_rows) 1 (Some "CS 101")
    = Ok feats /\
    feats !! "courses_taken" = Some (Num 2).
Proof.
  destruct (courses_taken_counts_past DEFAULT_FEATURES sample_rows 1 (Some "CS 101"))
    as (feats & n & Hf & Hn & -> & _); [by vm_compute|by intros c' [= <-]|].
  exists feats. split; [exact Hf|exact Hn].
Defined.

Lemma recordsFor_without_course s c rs :
  recordsFor s (without_course s c rs)
  = List.filter (fun r => negb (String.eqb (course_code r) c)) (recordsFor s rs).
Proof.
  unfold recordsFor, without_course. induction rs as [|r rs IH]; [done|].
  cbn [List.filter]. destruct (student_id r =? s) eqn:Hs; cbn [andb negb List.filter].
  - destruct (String.eqb (course_code r) c); cbn [negb List.filter]; rewrite ?Hs; by rewrite IH.
  - by rewrite Hs, IH.
Qed.

Lemma filter_idem {A} (p : A -> bool) (l : list A) :
  List.filter p (List.filter p l) = List.filter p l.
Proof.
  induction l as [|x l IH]; [done|]. cbn. destruct (p x) eqn:Hx; [|done].
  cbn. by rewrite Hx, IH.
Qed.

(** X3.  Lines 55-57.  When the student has a record in another course
    than the requested one, no row of the requested course is in the past
    set: the dictionary is the one computed on the dataset without the
    student's rows in that course. *)
Theorem requested_course_never_leaks FEATURES rs s c r :
  In r (recordsFor s rs) -> course_code r <> c ->
  get_history_features FEATURES (read_csv rs) s (Some c)
  = get_history_features FEATURES (read_csv (without_course s c rs)) s (Some c)
  /\ Forall (fun r' => course_code r' <> c) (past_rows (recordsFor s rs) (Some c)).
Proof.
  intros Hin Hne.
  set (others := List.filter (fun r => negb (String.eqb (course_code r) c)) (recordsFor s rs)).
  assert (Hothers : In r others).
  { apply filter_In. split; [done|]. apply negb_true_iff. by apply String.eqb_neq. }
  assert (Hpast : past_rows (recordsFor s rs) (Some c) = others).
  { unfold past_rows. fold others. by destruct others. }
  assert (Hpast' : past_rows (recordsFor s (without_course s c rs)) (Some c) = others).
  { unfold past_rows. rewrite recordsFor_without_course. fold others.
    unfold others at 1. rewrite filter_idem. fold others. by destruct others. }
  split.
  - rewrite !get_history_features_records.
    + by rewrite Hpast, Hpast'.
    + rewrite recordsFor_without_course. fold others. by destruct others.
    + by destruct (recordsFor s rs).
  - rewrite Hpast. apply Forall_forall. intros r' [_ Hr']%list_elem_of_In%filter_In.
    apply negb_true_iff in Hr'. by apply String.eqb_neq.
Qed.

(** Student 1 asks for "CS 101" and has a record in "CS 102". *)
Lemma requested_course_never_leaks_witness :
  get_history_features DEFAULT_FEATURES (read_csv sample_rows) 1 (Some "CS 101")
  = get_history_features DEFAULT_FEATURES
      (read_csv (without_course 1 "CS 101" sample_rows)) 1 (Some "CS 101").
Proof.
  apply (requested_course_never_leaks DEFAULT_FEATURES sample_rows 1 "CS 101"
           (record 1 "CS 102" true 45 40 50 45 70 false)).
  - right. left. reflexivity.
  - discriminate.
Defined.

(** ** Values of the history dictionary *)

Lemma mean_is_number (xs : list Q) : xs <> [] -> is_number (mean xs).
Proof. by destruct xs. Qed.

Lemma Qsum_bool_bounds (bs : list bool) :
  (0 <= Qsum (map Q_of_bool bs) <= inject_Z (Z.of_nat (length bs)))%Q.
Proof.
  induction bs as [|b bs [IHl IHu]]; [by split|].
  cbn [map Qsum length].
  assert (Hn : (inject_Z (Z.of_nat (S (length bs)))
                == 1 + inject_Z (Z.of_nat (length bs)))%Q).
  { rewrite Nat2Z.inj_succ, <- Z.add_1_l, inject_Z_plus. apply Qeq_refl. }
  rewrite Hn. destruct b; cbn [Q_of_bool]; split.
  - change 0%Q with (0 + 0)%Q. by apply Qplus_le_compat.
  - apply Qplus_le_compat; [apply Qle_refl|exact IHu].
  - by rewrite Qplus_0_l.
  - apply Qplus_le_compat; [done|exact IHu].
Qed.

Lemma mean_bool_is_rate (bs : list bool) : bs <> [] -> is_rate (mean_bool bs).
Proof.
  destruct bs as [|b bs]; [done|]. intros _. unfold mean_bool, mean, is_rate.
  set (l := b :: bs). change (map Q_of_bool (b :: bs)) with (map Q_of_bool l).
  rewrite length_map. destruct (Qsum_bool_bounds l) as [Hl Hu].
  assert (Hn : (0 < inject_Z (Z.of_nat (length l)))%Q).
  { change 0%Q with (inject_Z 0). rewrite <- Zlt_Qlt. subst l. cbn [length]. lia. }
  split.
  - setoid_rewrite Qred_correct. apply Qle_shift_div_l; [done|]. by rewrite Qmult_0_l.
  - setoid_rewrite Qred_correct. apply Qle_shift_div_r; [done|]. by rewrite Qmult_1_l.
Qed.

Lemma is_rate_is_number (v : num) : is_rate v -> is_number v.
Proof. by destruct v. Qed.

Lemma map_nonempty {A B} (f : A -> B) (l : list A) : l <> [] -> map f l <> [].
Proof. by destruct l. Qed.

Lemma dept_rate_for_is_rate past d : past <> [] -> is_rate (dept_rate_for past d).
Proof.
  intros Hp. unfold dept_rate_for. destruct (dept_rows past d) as [|r dp].
  - by apply mean_bool_is_rate, map_nonempty.
  - by apply mean_bool_is_rate.
Qed.

Lemma dept_rate_is_rate past c d :
  past <> [] -> dept_rate past c = Ok d -> is_rate d.
Proof.
  intros Hp. unfold dept_rate.
  assert (Hall : is_rate (mean_bool (map passed past)))
    by by apply mean_bool_is_rate, map_nonempty.
  destruct c as [c|]; [|by intros [= <-]].
  destruct (truthy c); [|by intros [= <-]].
  destruct (split c) as [|t ts]; [done|]. intros [= <-]. by apply dept_rate_for_is_rate.
Qed.

Lemma history_Ok_inv FEATURES rs s c feats :
  get_history_features FEATURES (read_csv rs) s c = Ok feats ->
  (recordsFor s rs = [] /\ feats = zero_fill FEATURES) \/
  (exists d, let past := past_rows (recordsFor s rs) c in
     past <> [] /\ is_rate d /\ dept_rate past c = Ok d /\ feats = aggregates past d).
Proof.
  intros H. destruct (recordsFor s rs) as [|r0 recs] eqn:Hrecs.
  - left. rewrite get_history_features_no_records in H by done. by injection H as <-.
  - right. rewrite get_history_features_records in H by (by rewrite Hrecs).
    rewrite Hrecs in H. bind_inv H. injection H as <-. exists x.
    assert (Hp : past_rows (r0 :: recs) c <> []) by by apply past_rows_nonempty.
    cbv zeta. split; [done|]. split; [by eapply dept_rate_is_rate|done].
Qed.

(** X4.  Lines 53-77.  On a loaded dataset no value of the history
    dictionary is NaN: every mean is taken over a set of rows that the
    fallbacks keep non-empty. *)
Theorem history_values_are_numbers FEATURES rs s c feats k v :
  get_history_features FEATURES (read_csv rs) s c = Ok feats ->
  feats !! k = Some v -> is_number v.
Proof.
  intros [[_ ->]|(d & Hp & Hd & _ & ->)]%history_Ok_inv Hk.
  - rewrite zero_fill_lookup in Hk. by destruct (_ && _); simplify_eq.
  - cbv zeta in Hp. set (past := past_rows (recordsFor s rs) c) in *.
    unfold aggregates in Hk.
    repeat (apply lookup_insert_Some in Hk as [[_ <-]|[_ Hk]];
      [try (apply mean_is_number, map_nonempty; done);
       try (apply is_rate_is_number, mean_bool_is_rate, map_nonempty; done)|]).
    + destruct (prereq_rows past) as [|r pp].
      * by apply is_rate_is_number, mean_bool_is_rate, map_nonempty.
      * by apply is_rate_is_number, mean_bool_is_rate.
    + destruct (prereq_rows past) as [|r pp]; [by apply mean_is_number, map_nonempty|done].
    + by apply is_rate_is_number.
    + done.
    + by rewrite lookup_empty in Hk.
Qed.

(** Student 1 asks for "CS 103". *)
Lemma history_values_are_numbers_witness :
  exists feats v,
    get_history_features DEFAULT_FEATURES (read_csv sample_rows) 1 (Some "CS 103")
    = Ok feats /\
    feats !! "prereq_avg_score" = Some v /\ is_number v.
Proof.
  destruct (is_Ok_inv (get_history_features DEFAULT_FEATURES (read_csv sample_rows) 1
                         (Some "CS 103"))) as [feats Hf]; [vm_compute; reflexivity|].
  assert (Hs : is_Some (feats !! "prereq_avg_score")).
  { destruct (history_Ok_inv _ _ _ _ _ Hf) as [[Hn _]|(d & _ & _ & _ & ->)];
      [vm_compute in Hn; discriminate|].
    apply aggregates_dom. unfold HISTORY_KEYS. rewrite !elem_of_cons. auto 12. }
  destruct Hs as [v Hv]. exists feats, v. do 2 (split; [done|]).
  exact (history_values_are_numbers _ _ _ _ _ _ _ Hf Hv).
Defined.

(** X5.  Lines 64, 71 and 77.  On a loaded dataset [past_pass_rate],
    [dept_pass_rate] and [prereq_pass_rate] lie between 0 and 1. *)
Theorem pass_rates_between_0_and_1 FEATURES rs s c feats k v :
  get_history_features FEATURES (read_csv rs) s c = Ok feats ->
  k ∈ RATE_KEYS -> feats !! k = Some v -> is_rate v.
Proof.
  intros [[_ ->]|(d & Hp & Hd & _ & ->)]%history_Ok_inv Hin Hk.
  - rewrite zero_fill_lookup in Hk. destruct (_ && _); simplify_eq. by split.
  - cbv zeta in Hp. set (past := past_rows (recordsFor s rs) c) in *.
    unfold RATE_KEYS in Hin.
    repeat (apply elem_of_cons in Hin as [->|Hin]); [..|by apply elem_of_nil in Hin].
    all: unfold aggregates in Hk; cbv zeta in Hk;
      rewrite ?lookup_insert_ne in Hk by done;
      rewrite lookup_insert_eq in Hk; injection Hk as <-.
    + by apply mean_bool_is_rate, map_nonempty.
    + done.
    + destruct (prereq_rows past) as [|r pp].
      * by apply mean_bool_is_rate, map_nonempty.
      * by apply mean_bool_is_rate.
Qed.

(** Student 1 asks for "CS 103". *)
Lemma pass_rates_between_0_and_1_witness :
  exists feats v,
    get_history_features DEFAULT_FEATURES (read_csv sample_rows) 1 (Some "CS 103")
    = Ok feats /\
    feats !! "dept_pass_rate" = Some v /\ is_rate v.
Proof.
  destruct (is_Ok_inv (get_history_features DEFAULT_FEATURES (read_csv sample_rows) 1
                         (Some "CS 103"))) as [feats Hf]; [vm_compute; reflexivity|].
  assert (Hs : is_Some (feats !! "dept_pass_rate")).
  { destruct (history_Ok_inv _ _ _ _ _ Hf) as [[Hn _]|(d & _ & _ & _ & ->)];
      [vm_compute in Hn; discriminate|].
    apply aggregates_dom. unfold HISTORY_KEYS. rewrite !elem_of_cons. auto 12. }
  destruct Hs as [v Hv]. exists feats, v. do 2 (split; [done|]).
  apply (pass_rates_between_0_and_1 _ _ _ _ _ "dept_pass_rate" _ Hf); [|exact Hv].
  unfold RATE_KEYS. rewrite !elem_of_cons. auto.
Defined.

(** ** What the history dictionary depends on *)

(** X6.  Line 52.  The dictionary of a student depends on the dataset
    through that student's rows only: two datasets with the same rows for
    the student give the same result. *)
Theorem history_of_own_rows_only FEATURES rs1 rs2 s c :
  recordsFor s rs1 = recordsFor s rs2 ->
  get_history_features FEATURES (read_csv rs1) s c
  = get_history_features FEATURES (read_csv rs2) s c.
Proof.
  intros Heq. destruct (recordsFor s rs2) as [|r recs] eqn:H2.
  - by rewrite !get_history_features_no_records.
  - rewrite !get_history_features_records by congruence. by rewrite Heq, H2.
Qed.

(** A row of student 2 more changes nothing for student 1. *)
Lemma history_of_own_rows_only_witness :
  get_history_features DEFAULT_FEATURES (read_csv sample_rows) 1 (Some "CS 103")
  = get_history_features DEFAULT_FEATURES
      (read_csv (sample_rows ++ [record 2 "CS 102" true 30 30 30 30 50 false]))
      1 (Some "CS 103").
Proof.
  apply (history_of_own_rows_only DEFAULT_FEATURES sample_rows
           (sample_rows ++ [record 2 "CS 102" true 30 30 30 30 50 false]) 1
           (Some "CS 103")).
  reflexivity.
Defined.

(** X7.  Lines 55-78.  For a student with a record the dictionary does not
    depend on the feature list, values included; only the zero fill of
    line 54 reads [FEATURES]. *)
Theorem history_with_records_ignores_FEATURES FEATURES1 FEATURES2 rs s c :
  recordsFor s rs <> [] ->
  get_history_features FEATURES1 (read_csv rs) s c
  = get_history_features FEATURES2 (read_csv rs) s c.
Proof. intros H. by rewrite !get_history_features_records. Qed.

(** Student 1 under the empty list and under the default list. *)
Lemma history_with_records_ignores_FEATURES_witness :
  get_history_features [] (read_csv sample_rows) 1 (Some "CS 103")
  = get_history_features DEFAULT_FEATURES (read_csv sample_rows) 1 (Some "CS 103").
Proof.
  apply (history_with_records_ignores_FEATURES [] DEFAULT_FEATURES sample_rows 1
           (Some "CS 103")).
  by vm_compute.
Defined.

(** X8.  Lines 68-69 and 137.  On a loaded dataset [get_history_features]
    never raises for the course code of a request, which line 137 strips:
    whatever the student and the text, it returns a dictionary. *)
Theorem history_of_request_never_raises FEATURES rs s text :
  exists feats,
    get_history_features FEATURES (read_csv rs) s (Some (strip text)) = Ok feats.
Proof.
  destruct (recordsFor s rs) as [|r recs] eqn:Hrecs.
  - exists (zero_fill FEATURES). by apply get_history_features_no_records.
  - rewrite get_history_features_records by congruence.
    destruct (dept_rate_Ok (past_rows (recordsFor s rs) (Some (strip text)))
                (Some (strip text))) as [d ->].
    + intros c' [= <-]. apply strip_not_whitespace_only.
    + by eexists.
Qed.

Lemma split_from_blank (t : string) : blank t = true -> split_from [] t = [].
Proof.
  induction t as [|a t IH]; [done|]. cbn [blank split_from].
  intros [-> Ht]%andb_prop. cbn [flush app]. by apply IH.
Qed.

(** X9.  Lines 53-54 and 69.  Called with a non-empty course code of
    whitespace only, [get_history_features] raises [IndexError] for a
    student with a record ([split()] finds no token), and still returns
    the zero fill for a student without. *)
Theorem whitespace_code_raises_IndexError FEATURES rs s c :
  whitespace_only c = true ->
  get_history_features FEATURES (read_csv rs) s (Some c)
  = match recordsFor s rs with
    | [] => Ok (zero_fill FEATURES)
    | _ :: _ => Raise IndexError
    end.
Proof.
  unfold whitespace_only. intros [Ht Hb]%andb_prop.
  destruct (recordsFor s rs) as [|r recs] eqn:Hrecs.
  - by apply get_history_features_no_records.
  - rewrite get_history_features_records by congruence.
    unfold dept_rate, split. by rewrite Ht, split_from_blank.
Qed.

(** Student 1 and the course code made of one space. *)
Lemma whitespace_code_raises_IndexError_witness :
  get_history_features DEFAULT_FEATURES (read_csv sample_rows) 1 (Some " ")
  = Raise IndexError.
Proof.
  exact (whitespace_code_raises_IndexError DEFAULT_FEATURES sample_rows 1 " " eq_refl).
Defined.

(** X10.  Lines 68-73.  Without a course code, or with the empty one, the
    department pass rate of a student with a record is the overall
    [past_pass_rate]; without a course code nothing is excluded, so
    [courses_taken] counts all the records. *)
Theorem no_department_uses_overall_rate FEATURES rs s c :
  recordsFor s rs <> [] ->
  c = None \/ c = Some "" ->
  exists feats,
    get_history_features FEATURES (read_csv rs) s c = Ok feats /\
    feats !! "past_pass_rate"
    = Some (mean_bool (map passed (past_rows (recordsFor s rs) c))) /\
    feats !! "dept_pass_rate" = feats !! "past_pass_rate" /\
    (c = None ->
     feats !! "courses_taken" = Some (of_int (Z.of_nat (length (recordsFor s rs))))).
Proof.
  intros H Hc. rewrite get_history_features_records by done.
  destruct Hc as [-> | ->]; cbn [dept_rate truthy mbind result_bind];
    eexists; by repeat split.
Qed.

(** Student 1 without a course code: three records. *)
Lemma no_department_uses_overall_rate_witness :
  exists feats,
    get_history_features DEFAULT_FEATURES (read_csv sample_rows) 1 None = Ok feats /\
    feats !! "dept_pass_rate" = feats !! "past_pass_rate" /\
    feats !! "courses_taken" = Some (Num 3).
Proof.
  destruct (no_department_uses_overall_rate DEFAULT_FEATURES sample_rows 1 None)
    as (feats & Hf & _ & Hd & Hn); [by vm_compute|by left|].
  exists feats. split; [exact Hf|]. split; [exact Hd|exact (Hn eq_refl)].
Defined.

(** ** Any frame *)

(** X11.  Lines 51-54.  For a student without a row, whatever the frame:
    [KeyError] on student_id when the frame has no such column, the zero
    fill when it has; no other column is read. *)
Theorem no_record_in_any_frame FEATURES df s c :
  recordsFor s (rows df) = [] ->
  get_history_features FEATURES df s c
  = if bool_decide ("student_id" ∈ columns df) then Ok (zero_fill FEATURES)
    else Raise (KeyError "student_id").
Proof.
  intros Hnone. unfold get_history_features, getitem.
  destruct (bool_decide _); [|done]. cbn [mbind result_bind].
  unfold empty, getitem_mask; cbn [columns rows]. rewrite map_map.
  rewrite (mask_rows (rows df) (fun r => student_id r =? s)).
  fold (recordsFor s (rows df)). rewrite Hnone. by destruct (columns df).
Qed.

(** A frame with the column student_id only, and student 9. *)
Lemma no_record_in_any_frame_witness :
  get_history_features DEFAULT_FEATURES
    {| columns := ["student_id"]; rows := sample_rows |} 9 (Some "CS 101")
  = Ok (zero_fill DEFAULT_FEATURES).
Proof.
  exact (no_record_in_any_frame DEFAULT_FEATURES
           {| columns := ["student_id"]; rows := sample_rows |} 9 (Some "CS 101")
           eq_refl).
Defined.

(** ** The handler *)

Lemma current_keys_lookup (i : Inputs) (mid fin asm : num) (k : string) :
  is_Some ((<["assignment_score" := asm]>
           (<["final_score" := fin]>
           (<["midterm_score" := mid]>
           (<["attendance_rate" := att i]>
           (<["credits" := cr i]>
           (<["has_prerequisites" := of_int (pre i)]> (∅ : gmap string num))))))) !! k)
  <-> k ∈ CURRENT_KEYS.
Proof.
  unfold CURRENT_KEYS.
  rewrite !lookup_insert_is_Some', lookup_empty, is_Some_alt.
  rewrite !elem_of_cons, elem_of_nil. intuition (subst; auto 8).
Qed.

Lemma merge_keys i mid fin asm hist k :
  is_Some (merge i mid fin asm hist !! k) <-> k ∈ CURRENT_KEYS \/ is_Some (hist !! k).
Proof.
  unfold merge. rewrite lookup_union_is_Some, current_keys_lookup. tauto.
Qed.

Lemma merge_history_entry i mid fin asm hist k v :
  hist !! k = Some v -> merge i mid fin asm hist !! k = Some v.
Proof. intros Hk. unfold merge. by apply lookup_union_Some_l. Qed.

Section HandlerFacts.

Variable FEATURES : list string.
Variable df : DataFrame.
Variable py_int : string -> result Z.
Variable py_float : string -> result num.
Variable predict_proba : list (string * num) -> result Q.

Lemma backfill_effective f hist field avg :
  backfill py_float f hist field avg
  = match effective f field with
    | Some text => py_float text
    | None => dict_getitem hist avg
    end.
Proof.
  unfold backfill, effective. destruct (f !! field) as [text|]; [|done].
  by destruct (truthy text).
Qed.

Lemma index_merged_Raise f e :
  merged_record FEATURES df py_int py_float f = Raise e ->
  index FEATURES df py_int py_float predict_proba (post f) = error_page.
Proof.
  intros H. apply (index_Raise _ _ _ _ _ _ e). unfold predict. by rewrite H.
Qed.

End HandlerFacts.

(** X12.  Lines 159-167.  The merged record holds has_prerequisites,
    credits and attendance_rate as read from the form, every entry of the
    history dictionary unchanged, and no key beyond the six current-term
    keys and the keys of the history dictionary. *)
Theorem merged_record_keeps_inputs FEATURES df py_int py_float f data :
  merged_record FEATURES df py_int py_float f = Ok data ->
  exists i hist,
    read_inputs py_int py_float f = Ok i /\
    get_history_features FEATURES df (sid i) (Some (code i)) = Ok hist /\
    data !! "has_prerequisites" = Some (of_int (pre i)) /\
    data !! "credits" = Some (cr i) /\
    data !! "attendance_rate" = Some (att i) /\
    (forall k v, hist !! k = Some v -> data !! k = Some v) /\
    (forall k, is_Some (data !! k) <-> k ∈ CURRENT_KEYS \/ is_Some (hist !! k)).
Proof.
  intros (i & hist & mid & fin & asm & Hi & Hh & _ & _ & _ & ->)%merged_record_inv.
  exists i, hist. do 2 (split; [done|]).
  assert (Hcur : forall k, is_history_key k = false ->
            merge i mid fin asm hist !! k
            = (<["assignment_score" := asm]>
              (<["final_score" := fin]>
              (<["midterm_score" := mid]>
              (<["attendance_rate" := att i]>
              (<["credits" := cr i]>
              (<["has_prerequisites" := of_int (pre i)]> (∅ : gmap string num))))))) !! k).
  { intros k Hk. apply merge_lookup_current. eapply history_lacks_key; eauto. }
  rewrite !Hcur by done. do 3 (split; [reflexivity|]).
  split; [intros k v; apply merge_history_entry|apply merge_keys].
Qed.

(** Student 1 asks for "CS 103" with 3 credits. *)
Lemma merged_record_keeps_inputs_witness :
  exists data,
    merged_record DEFAULT_FEATURES (read_csv sample_rows) int_of_decimal
      float_of_decimal (sample_form "1" "CS 103" "1" "3" "80" []) = Ok data /\
    data !! "credits" = Some (Num 3) /\
    data !! "attendance_rate" = Some (Num 80).
Proof.
  set (f := sample_form "1" "CS 103" "1" "3" "80" []).
  destruct (is_Ok_inv (merged_record DEFAULT_FEATURES (read_csv sample_rows)
                         int_of_decimal float_of_decimal f)) as [data Hd];
    [vm_compute; reflexivity|].
  destruct (merged_record_keeps_inputs _ _ _ _ _ _ Hd)
    as (i & hist & Hi & _ & _ & Hcr & Hatt & _).
  assert (i = {| sid := 1; code := "CS 103"; pre := 1; cr := Num 3; att := Num 80 |})
    as -> by (vm_compute in Hi; congruence).
  exists data. by repeat split.
Defined.

Lemma bind_raises {A B : Type} (m : result A) (k : A -> result B) :
  (forall a, exists e, k a = Raise e) -> exists e, m ≫= k = Raise e.
Proof. intros Hk. destruct m as [a|e]; [apply Hk|by exists e]. Qed.

(** X13.  Lines 146-153 and 179-181.  An optional score that is filled in
    with a text on which [float()] raises ends the request on the error
    page: it is not backfilled. *)
Theorem unparsable_optional_score_fails FEATURES df py_int py_float predict_proba
    f field text :
  field ∈ OPTIONAL_FIELDS ->
  effective f field = Some text ->
  is_Ok (py_float text) = false ->
  index FEATURES df py_int py_float predict_proba (post f) = error_page.
Proof.
  intros Hin Heff Hbad.
  assert (Htext : forall B (k : num -> result B), exists e, py_float text ≫= k = Raise e).
  { intros B k. destruct (py_float text) as [v|e]; [done|by exists e]. }
  assert (Hraise : exists e, merged_record FEATURES df py_int py_float f = Raise e).
  { unfold merged_record. apply bind_raises. intros i. apply bind_raises. intros hist.
    rewrite !backfill_effective. unfold OPTIONAL_FIELDS in Hin.
    repeat (apply elem_of_cons in Hin as [->|Hin]); [..|by apply elem_of_nil in Hin].
    - rewrite Heff. apply Htext.
    - apply bind_raises. intros mid. rewrite Heff. apply Htext.
    - apply bind_raises. intros mid. apply bind_raises. intros fin.
      rewrite Heff. apply Htext. }
  destruct Hraise as [e He]. by eapply index_merged_Raise.
Qed.

(** A form whose midterm reads "abc". *)
Lemma unparsable_optional_score_fails_witness :
  index DEFAULT_FEATURES (read_csv sample_rows) int_of_decimal float_of_decimal
    sample_model (post (sample_form "1" "CS 103" "1" "3" "80" [("midterm", "abc")]))
  = error_page.
Proof.
  apply (unparsable_optional_score_fails DEFAULT_FEATURES (read_csv sample_rows)
           int_of_decimal float_of_decimal sample_model
           (sample_form "1" "CS 103" "1" "3" "80" [("midterm", "abc")])
           "midterm" "abc").
  - unfold OPTIONAL_FIELDS. apply elem_of_cons. by left.
  - reflexivity.
  - reflexivity.
Defined.

(** X14.  Lines 136-153.  The response depends on the form through the
    five required fields and the non-empty optional scores only: any other
    field is ignored, and an empty optional score counts as absent. *)
Theorem response_depends_on_eight_fields FEATURES df py_int py_float predict_proba f1 f2 :
  (forall k, k ∈ REQUIRED_FIELDS -> f1 !! k = f2 !! k) ->
  (forall k, k ∈ OPTIONAL_FIELDS -> effective f1 k = effective f2 k) ->
  index FEATURES df py_int py_float predict_proba (post f1)
  = index FEATURES df py_int py_float predict_proba (post f2).
Proof.
  intros Hreq Hopt.
  assert (Hr : read_inputs py_int py_float f1 = read_inputs py_int py_float f2).
  { unfold read_inputs, dict_getitem.
    rewrite !Hreq by (unfold REQUIRED_FIELDS; repeat constructor). done. }
  assert (Hm : merged_record FEATURES df py_int py_float f1
               = merged_record FEATURES df py_int py_float f2).
  { unfold merged_record. rewrite Hr.
    destruct (read_inputs py_int py_float f2) as [i|e]; [|done].
    cbn [mbind result_bind].
    destruct (get_history_features _ _ _ _) as [hist|e]; [|done].
    cbn [mbind result_bind]. rewrite !backfill_effective.
    rewrite !Hopt by (unfold OPTIONAL_FIELDS; repeat constructor). done. }
  unfold index, post, predict; cbn [method form]. by rewrite Hm.
Qed.

(** An empty midterm and a stray comment field against the bare form. *)
Lemma response_depends_on_eight_fields_witness :
  index DEFAULT_FEATURES (read_csv sample_rows) int_of_decimal float_of_decimal
    sample_model
    (post (sample_form "1" "CS 103" "1" "3" "80" [("midterm", ""); ("comment", "x")]))
  = index DEFAULT_FEATURES (read_csv sample_rows) int_of_decimal float_of_decimal
      sample_model (post (sample_form "1" "CS 103" "1" "3" "80" [])).
Proof.
  apply (response_depends_on_eight_fields DEFAULT_FEATURES (read_csv sample_rows)
           int_of_decimal float_of_decimal sample_model).
  - intros k Hk. unfold REQUIRED_FIELDS in Hk.
    repeat (apply elem_of_cons in Hk as [->|Hk]; [reflexivity|]).
    by apply elem_of_nil in Hk.
  - intros k Hk. unfold OPTIONAL_FIELDS in Hk.
    repeat (apply elem_of_cons in Hk as [->|Hk]; [reflexivity|]).
    by apply elem_of_nil in Hk.
Defined.

(** X15.  Lines 173 and 179-181.  With a classifier that raises on every
    row, as a classifier that was never trained does, every submitted
    request ends on the error page. *)
Theorem failing_classifier_fails_every_request FEATURES df py_int py_float predict_proba f :
  (forall row, is_Ok (predict_proba row) = false) ->
  index FEATURES df py_int py_float predict_proba (post f) = error_page.
Proof.
  intros Hbad.
  assert (Hraise : exists e, predict FEATURES df py_int py_float predict_proba f = Raise e).
  { unfold predict.
    destruct (merged_record _ _ _ _ f) as [data|e]; [|by eexists].
    cbn [mbind result_bind].
    destruct (select_columns data FEATURES) as [row|e]; [|by eexists].
    cbn [mbind result_bind]. specialize (Hbad row).
    destruct (predict_proba row) as [p|e]; [done|by eexists]. }
  destruct Hraise as [e He]. by eapply index_Raise.
Qed.

(** The classifier that always raises. *)
Lemma failing_classifier_fails_every_request_witness :
  index DEFAULT_FEATURES (read_csv sample_rows) int_of_decimal float_of_decimal
    (fun _ => Raise ModelError) (post (sample_form "1" "CS 103" "1" "3" "80" []))
  = error_page.
Proof.
  apply (failing_classifier_fails_every_request DEFAULT_FEATURES
           (read_csv sample_rows) int_of_decimal float_of_decimal
           (fun _ => Raise ModelError)).
  intros row. reflexivity.
Defined.

(** X16.  Lines 130-186.  The page has one of three shapes: nothing on it
    for a request that is not a POST; the error message and no prediction
    when the body of the [try] raised; or, with no message, the
    probability the classifier returned for a row keyed by [FEATURES] and
    the label of that probability. *)
Theorem response_shapes FEATURES df py_int py_float predict_proba request :
  let page := index FEATURES df py_int py_float predict_proba request in
  (method request <> "POST" /\
   page = {| prediction := None; probability := None; flashed := [] |}) \/
  (method request = "POST" /\ page = error_page /\
   exists e, predict FEATURES df py_int py_float predict_proba (form request) = Raise e) \/
  (method request = "POST" /\
   exists p row,
     predict_proba row = Ok p /\ map fst row = FEATURES /\
     page = {| prediction := Some (classify p); probability := Some p; flashed := [] |}).
Proof.
  cbv zeta. unfold index.
  destruct (String.eqb_spec (method request) "POST") as [Hm|Hm]; [|by left].
  right. destruct (predict _ _ _ _ _ (form request)) as [[label p]|e] eqn:Hp.
  - right. split; [done|]. unfold predict in Hp. repeat bind_inv Hp.
    injection Hp as <- <-. exists x1, x0. split; [done|].
    split; [by eapply select_columns_Ok|done].
  - left. split; [done|]. split; [done|]. by exists e.
Qed.

(** ** The feature list and the merged record *)

Lemma index_absent_feature FEATURES df py_int py_float predict_proba f k :
  k ∈ FEATURES -> k ∉ CURRENT_KEYS -> is_history_key k = false ->
  index FEATURES df py_int py_float predict_proba (post f) = error_page.
Proof.
  intros Hin Hcur Hhist.
  destruct (merged_record FEATURES df py_int py_float f) as [data|e] eqn:Hd;
    [|by eapply index_merged_Raise].
  assert (Hk : data !! k = None).
  { apply merged_record_inv in Hd
      as (i & hist & mid & fin & asm & _ & Hh & _ & _ & _ & ->).
    apply eq_None_not_Some. intros [Hc|Hs]%merge_keys; [done|].
    apply (history_keys_only _ _ _ _ _ _ Hh) in Hs. congruence. }
  destruct (select_columns_absent data FEATURES k Hin Hk) as (k' & _ & _ & Hsel).
  apply (index_Raise _ _ _ _ _ _ (KeyError k')).
  unfold predict. by rewrite Hd; cbn [mbind result_bind]; rewrite Hsel.
Qed.

(** X17.  Lines 159-170.  A name of [FEATURES] that is neither one of the
    six current-term keys nor a history name (prefix "past_" or one of the
    four names of line 54) is never a key of the merged record: every
    submitted request ends on the error page, whatever the dataset. *)
Theorem unknown_feature_fails_every_request FEATURES df py_int py_float predict_proba
    f k :
  k ∈ FEATURES -> k ∉ CURRENT_KEYS -> is_history_key k = false ->
  index FEATURES df py_int py_float predict_proba (post f) = error_page.
Proof. apply index_absent_feature. Qed.

(** The default list with the name gpa added. *)
Lemma unknown_feature_fails_every_request_witness :
  index (DEFAULT_FEATURES ++ ["gpa"]) (read_csv sample_rows) int_of_decimal
    float_of_decimal sample_model (post (sample_form "1" "CS 103" "1" "3" "80" []))
  = error_page.
Proof.
  apply (unknown_feature_fails_every_request (DEFAULT_FEATURES ++ ["gpa"])
           (read_csv sample_rows) int_of_decimal float_of_decimal sample_model
           (sample_form "1" "CS 103" "1" "3" "80" []) "gpa").
  - apply elem_of_app. right. apply elem_of_cons. by left.
  - unfold CURRENT_KEYS. intros H.
    repeat (apply elem_of_cons in H as [H|H]; [discriminate|]). by apply elem_of_nil in H.
  - reflexivity.
Defined.

Lemma lstrip_blank (t : string) : blank t = true -> lstrip t = "".
Proof.
  induction t as [|a t IH]; [done|]. cbn [blank lstrip].
  intros [-> Ht]%andb_prop. by apply IH.
Qed.

Lemma strip_blank (t : string) : blank t = true -> strip t = "".
Proof. intros Ht. unfold strip. by rewrite lstrip_blank. Qed.

(** X18.  Lines 32 and 170.  Line 32 keeps the blank lines of the feature
    file as empty names: when the file has a line of whitespace only,
    every submitted request ends on the error page. *)
Theorem blank_feature_line_fails_every_request lines df py_int py_float predict_proba
    f line :
  line ∈ lines -> blank line = true ->
  index (load_features lines) df py_int py_float predict_proba (post f) = error_page.
Proof.
  intros Hin Hb.
  apply (index_absent_feature _ _ _ _ _ _ "").
  - unfold load_features. rewrite <- (strip_blank line Hb).
    apply list_elem_of_In, in_map. by apply list_elem_of_In.
  - unfold CURRENT_KEYS. intros H.
    repeat (apply elem_of_cons in H as [H|H]; [discriminate|]). by apply elem_of_nil in H.
  - reflexivity.
Qed.

(** A feature file with a blank second line. *)
Lemma blank_feature_line_fails_every_request_witness :
  index (load_features ["credits"; " "; "attendance_rate"]) (read_csv sample_rows)
    int_of_decimal float_of_decimal sample_model
    (post (sample_form "1" "CS 103" "1" "3" "80" []))
  = error_page.
Proof.
  apply (blank_feature_line_fails_every_request ["credits"; " "; "attendance_rate"]
           (read_csv sample_rows) int_of_decimal float_of_decimal sample_model
           (sample_form "1" "CS 103" "1" "3" "80" []) " ").
  - apply elem_of_cons. right. apply elem_of_cons. by left.
  - reflexivity.
Defined.

Lemma read_inputs_code py_int py_float f i :
  read_inputs py_int py_float f = Ok i -> whitespace_only (code i) = false.
Proof.
  unfold read_inputs. intros H. repeat bind_inv H. injection H as <-.
  cbn [code]. apply strip_not_whitespace_only.
Qed.

Lemma default_features_split k :
  k ∈ DEFAULT_FEATURES -> k ∈ CURRENT_KEYS \/ k ∈ HISTORY_KEYS.
Proof.
  unfold DEFAULT_FEATURES, CURRENT_KEYS, HISTORY_KEYS.
  rewrite !elem_of_cons, !elem_of_nil. intuition auto 20.
Qed.

(** X19.  Lines 134-178.  On a loaded dataset, under a feature list drawn
    from the sixteen default names, a submitted request is scored as soon
    as its required fields are readable, [float()] reads each optional
    score that is filled in, each optional score left out belongs to a
    student with a record or has its [past_avg_*] name in [FEATURES], and
    the classifier returns: the page shows the classifier's probability
    and its label, and no message. *)
Theorem well_formed_request_is_scored FEATURES rs py_int py_float predict_proba f i :
  (forall k, k ∈ FEATURES -> k ∈ DEFAULT_FEATURES) ->
  read_inputs py_int py_float f = Ok i ->
  (forall field key avg, (field, key, avg) ∈ OPTIONAL_SCORES ->
     match effective f field with
     | Some text => is_Ok (py_float text) = true
     | None => recordsFor (sid i) rs <> [] \/ avg ∈ FEATURES
     end) ->
  (forall row, is_Ok (predict_proba row) = true) ->
  exists p,
    index FEATURES (read_csv rs) py_int py_float predict_proba (post f)
    = {| prediction := Some (classify p); probability := Some p; flashed := [] |}.
Proof.
  intros Hsub Hi Hopt Hmodel.
  assert (Hcode := read_inputs_code _ _ _ _ Hi).
  assert (Hh : exists hist,
    get_history_features FEATURES (read_csv rs) (sid i) (Some (code i)) = Ok hist /\
    (forall k, k ∈ HISTORY_KEYS ->
       recordsFor (sid i) rs <> [] \/ k ∈ FEATURES -> is_Some (hist !! k))).
  { destruct (recordsFor (sid i) rs) as [|r recs] eqn:Hrecs.
    - exists (zero_fill FEATURES).
      split; [by apply get_history_features_no_records|].
      intros k Hk [?|Hin]; [done|]. rewrite zero_fill_lookup.
      by rewrite (bool_decide_eq_true_2 _ Hin), history_keys_are_history_key.
    - rewrite get_history_features_records by congruence.
      destruct (dept_rate_Ok (past_rows (recordsFor (sid i) rs) (Some (code i)))
                  (Some (code i))) as [d ->]; [by intros c' [= <-]|].
      eexists. split; [reflexivity|]. intros k Hk _. by apply aggregates_dom. }
  destruct Hh as (hist & Hh & Hkeys).
  assert (Hfill : forall field key avg, (field, key, avg) ∈ OPTIONAL_SCORES ->
            avg ∈ HISTORY_KEYS ->
            exists v, backfill py_float f hist field avg = Ok v).
  { intros field key avg Hin Havg. rewrite backfill_effective.
    specialize (Hopt field key avg Hin). destruct (effective f field) as [text|].
    - by apply is_Ok_inv.
    - destruct (Hkeys avg Havg Hopt) as [v Hv]. exists v. unfold dict_getitem. by rewrite Hv. }
  destruct (Hfill "midterm" "midterm_score" "past_avg_midterm_score") as [mid Hmid];
    [unfold OPTIONAL_SCORES; by repeat constructor
    |unfold HISTORY_KEYS; by repeat constructor|].
  destruct (Hfill "final" "final_score" "past_avg_final_score") as [fin Hfin];
    [unfold OPTIONAL_SCORES; by repeat constructor
    |unfold HISTORY_KEYS; by repeat constructor|].
  destruct (Hfill "assignment" "assignment_score" "past_avg_assignment_score")
    as [asm Hasm];
    [unfold OPTIONAL_SCORES; by repeat constructor
    |unfold HISTORY_KEYS; by repeat constructor|].
  assert (Hd : merged_record FEATURES (read_csv rs) py_int py_float f
               = Ok (merge i mid fin asm hist)).
  { unfold merged_record. rewrite Hi; cbn [mbind result_bind].
    rewrite Hh; cbn [mbind result_bind]. by rewrite Hmid, Hfin, Hasm. }
  destruct (select_columns_present (merge i mid fin asm hist) FEATURES) as [row Hrow].
  { intros k Hk. apply merge_keys.
    destruct (default_features_split k (Hsub k Hk)) as [?|Hhk]; [by left|right].
    apply Hkeys; [done|by right]. }
  destruct (is_Ok_inv _ (Hmodel row)) as [p Hp]. exists p.
  unfold index, post, predict; cbn [method form].
  rewrite Hd; cbn [mbind result_bind]. rewrite Hrow; cbn [mbind result_bind].
  by rewrite Hp.
Qed.

(** Student 9 has no record; under the default list the request is scored
    all the same. *)
Lemma well_formed_request_is_scored_witness :
  exists p,
    index DEFAULT_FEATURES (read_csv sample_rows) int_of_decimal float_of_decimal
      sample_model (post (sample_form "9" "CS 103" "1" "3" "80" [("final", "77")]))
    = {| prediction := Some (classify p); probability := Some p; flashed := [] |}.
Proof.
  apply (well_formed_request_is_scored DEFAULT_FEATURES sample_rows int_of_decimal
           float_of_decimal sample_model
           (sample_form "9" "CS 103" "1" "3" "80" [("final", "77")])
           {| sid := 9; code := "CS 103"; pre := 1; cr := Num 3; att := Num 80 |}).
  - done.
  - reflexivity.
  - intros field key avg Hin. unfold OPTIONAL_SCORES in Hin.
    repeat (apply elem_of_cons in Hin as [[= -> -> ->]|Hin]);
      [..|by apply elem_of_nil in Hin].
    + right. unfold DEFAULT_FEATURES. rewrite !elem_of_cons. auto 20.
    + reflexivity.
    + right. unfold DEFAULT_FEATURES. rewrite !elem_of_cons. auto 20.
  - intros row. reflexivity.
Defined.
